(** * Quality control of spike-sorted units (seal/quality/test_sorting.py)

    A shallow embedding of the quality-metric and drift-detection routines
    of [seal.quality.test_sorting] together with the parts of
    [seal.object.unit.Unit] they touch.

    Numbers.  Python and NumPy floats are IEEE 754 binary64 values; they
    are modelled by the standard library's [spec_float] at precision 53 and
    maximal exponent 1024, whose operations round to nearest even and which
    has signed zeros, infinities and a NaN.  Comparisons involving NaN are
    false.  Decimal literals are the correctly rounded quotients of two
    integers. *)

From Stdlib Require Import ZArith Bool List Lia.
From Stdlib Require Import Floats.SpecFloat.
From stdpp Require Import gmap strings list.

Local Open Scope Z_scope.

(** ** IEEE doubles *)

Module F.

Definition prec : Z := 53.
Definition emax : Z := 1024.

Definition float : Type := spec_float.

Definition nan : float := S754_nan.

Definition add : float -> float -> float := SFadd prec emax.
Definition sub : float -> float -> float := SFsub prec emax.
Definition mul : float -> float -> float := SFmul prec emax.
Definition div : float -> float -> float := SFdiv prec emax.
Definition sqrt : float -> float := SFsqrt prec emax.

Definition ltb : float -> float -> bool := SFltb.
Definition leb : float -> float -> bool := SFleb.
Definition eqb : float -> float -> bool := SFeqb.
(** [a > b] and [a >= b] are [b < a] and [b <= a]. *)
Definition gtb (a b : float) : bool := ltb b a.
Definition geb (a b : float) : bool := leb b a.

(** Conversion of an integer, rounding to nearest even. *)
Definition of_Z (z : Z) : float := binary_normalize prec emax z 0 false.

(** The decimal literal [n/d], e.g. [0.675] is [lit 675 1000]. *)
Definition lit (n d : Z) : float := div (of_Z n) (of_Z d).

Definition is_nan (x : float) : bool :=
  match x with S754_nan => true | _ => false end.


(** A double proper: the mantissa is canonical for the exponent and the
    exponent is in range. *)
Definition valid (x : float) : bool := valid_binary prec emax x.


(** [int(np.floor(x))]: the largest integer not above [x]; there is none
    for NaN and the infinities. *)
Definition floor (x : float) : option Z :=
  match x with
  | S754_zero _ => Some 0
  | S754_finite s m e =>
      let n := if s then Z.neg m else Z.pos m in
      Some (if 0 <=? e then n * 2 ^ e else n / 2 ^ (- e))
  | S754_infinity _ | S754_nan => None
  end.

End F.

Abbreviation float := F.float.

(** ** Python numbers

    [isi_stats] returns Python integers on one path and floats on the
    others; [pynum] keeps the two apart.  A comparison of two integers is
    exact; a mixed comparison converts the integer, which for the integer
    constants of this module (90, 100, 0) is exact too. *)

Inductive pynum : Type :=
| PyInt (z : Z)
| PyFloat (f : float).

Definition to_float (n : pynum) : float :=
  match n with
  | PyInt z => F.of_Z z
  | PyFloat f => f
  end.

Definition py_ge (a b : pynum) : bool :=
  match a, b with
  | PyInt x, PyInt y => y <=? x
  | _, _ => F.geb (to_float a) (to_float b)
  end.

Definition py_is_nan (n : pynum) : bool :=
  match n with
  | PyInt _ => false
  | PyFloat f => F.is_nan f
  end.

(** Python's builtin [min(a, b)] and [max(a, b)] on two arguments: the
    first argument is kept unless the second is strictly smaller (larger). *)
Definition py_min (a b : float) : float := if F.ltb b a then b else a.
Definition py_max (a b : float) : float := if F.gtb b a then b else a.

(** ** Quantities

    Times carry a unit of the [quantities] package.  Only seconds and
    milliseconds occur; [rescale(ms)] leaves milliseconds alone and
    multiplies seconds by the conversion factor [1000.0]. *)

Inductive tunit : Type := Sec | Msec.

Record quantity : Type := Quantity { magnitude : list float; units : tunit }.

Definition rescale_ms1 (u : tunit) (x : float) : float :=
  match u with
  | Msec => x
  | Sec => F.mul (F.of_Z 1000) x
  end.

Definition rescale_ms (u : tunit) (xs : list float) : list float :=
  map (rescale_ms1 u) xs.

(** ** Constants *)

Definition CENSORED_PRD_LEN : float := F.lit 675 1000.   (* 0.675*ms *)
Definition ISI_TH : float := F.lit 10 10.                 (* 1.0*ms *)
Definition MAX_DRIFT_PCT : Z := 200.

Definition min_SNR : float := F.lit 10 10.
Definition min_FR : float := F.lit 10 10.
Definition max_ISIvr : float := F.lit 10 10.
Definition min_n_trs : float := F.of_Z 20.
Definition min_inc_trs_ratio : float := F.of_Z 50.

(** ** NumPy reductions *)

(** [np.minimum] and [np.maximum]: a NaN operand wins. *)
Definition np_minimum (a b : float) : float :=
  if F.is_nan a then a else if F.is_nan b then b
  else if F.ltb b a then b else a.

Definition np_maximum (a b : float) : float :=
  if F.is_nan a then a else if F.is_nan b then b
  else if F.ltb a b then b else a.

(** [a.min()] and [a.max()]; an empty array raises. *)
Definition np_min (xs : list float) : option float :=
  match xs with
  | [] => None
  | x :: rest => Some (fold_left np_minimum rest x)
  end.

Definition np_max (xs : list float) : option float :=
  match xs with
  | [] => None
  | x :: rest => Some (fold_left np_maximum rest x)
  end.

(** [np.diff]: successive differences, [a[k+1] - a[k]]. *)
Fixpoint np_diff (xs : list float) : list float :=
  match xs with
  | a :: (b :: _) as rest => F.sub b a :: np_diff rest
  | _ => []
  end.

(** Number of [True] entries of a boolean array. *)
Definition count_true (bs : list bool) : Z :=
  Z.of_nat (length (filter (fun b => b = true) bs)).

(** ** isi_stats *)

(** [elephant.statistics.isi] is [np.diff] on the spike times, in their
    unit. *)
Definition isi_ms (spk_times : quantity) : list float :=
  rescale_ms (units spk_times) (np_diff (magnitude spk_times)).

Definition n_ISI_vr (spk_times : quantity) : Z :=
  count_true (map (fun x => F.ltb x ISI_TH) (isi_ms spk_times)).

Definition percent_ISI_vr (spk_times : quantity) : float :=
  F.div (F.of_Z (100 * n_ISI_vr spk_times))
        (F.of_Z (Z.of_nat (length (isi_ms spk_times)))).

(** The time span [T] of the spike train, in ms. *)
Definition span_ms (spk_times : quantity) : float :=
  match np_max (magnitude spk_times), np_min (magnitude spk_times) with
  | Some hi, Some lo => rescale_ms1 (units spk_times) (F.sub hi lo)
  | _, _ => F.nan
  end.

Definition isi_det (spk_times : quantity) : float :=
  let N := Z.of_nat (length (magnitude spk_times)) in
  let T := span_ms spk_times in
  let r := n_ISI_vr spk_times in
  let tmax := ISI_TH in
  let tmin := CENSORED_PRD_LEN in
  let tdif := F.sub tmax tmin in
  F.sub (F.lit 1 4)
        (F.div (F.mul (F.of_Z r) T)
               (F.mul (F.mul (F.of_Z 2) tdif) (F.of_Z (N ^ 2)))).

Definition isi_stats (spk_times : quantity) : pynum * pynum :=
  match magnitude spk_times with
  | [] => (PyFloat F.nan, PyFloat F.nan)
  | [_] => (PyInt 100, PyInt 0)
  | _ =>
      let det := isi_det spk_times in
      let true_spikes :=
        if F.geb det (F.of_Z 0)
        then F.mul (F.of_Z 100) (F.add (F.lit 1 2) (F.sqrt det))
        else F.nan in
      (PyFloat true_spikes, PyFloat (percent_ISI_vr spk_times))
  end.

(** ** classify_unit *)

Definition classify_unit (snr true_spikes : pynum) : string :=
  if py_ge true_spikes (PyInt 90) && py_ge snr (PyFloat (F.lit 20 10))
  then "single unit"%string
  else "multi unit"%string.



(** The scenario of the specification: eight spikes, times in ms. *)
Definition scenario_spikes : quantity :=
  Quantity (map F.of_Z [0; 1; 2; 3; 100; 101; 102; 103]) Msec.

(** ** Exceptions

    A Python call either returns or raises. *)

Inductive exn : Type :=
  KeyError | TypeError | ValueError | IndexError | OverflowError.

Inductive result (A : Type) : Type :=
| Ok (a : A)
| Raise (e : exn).

Arguments Ok {A} a.
Arguments Raise {A} e.

#[global] Instance result_ret : MRet result := @Ok.

#[global] Instance result_bind : MBind result :=
  fun A B f r => match r with Ok a => f a | Raise e => Raise e end.

Definition of_option {A} (e : exn) (o : option A) : result A :=
  match o with Some a => Ok a | None => Raise e end.

(** ** test_rejection

    [QualityMetrics] is a [pd.Series] indexed by metric name.  Its numeric
    entries are doubles; the unit type is a string and the task-relatedness
    flag a boolean.  [UnitParams] is a series of the same kind. *)

Inductive qval : Type :=
| QNone
| QNum (f : float)
| QStr (s : string)
| QBool (b : bool).

(** [qm[key]] used as a number: a missing label raises [KeyError], a string
    in an arithmetic comparison raises [TypeError], a boolean counts as 0
    or 1. *)
Definition qm_num (qm : gmap string qval) (key : string) : result float :=
  match qm !! key with
  | None => Raise KeyError
  | Some (QNum f) => Ok f
  | Some (QBool b) => Ok (F.of_Z (if b then 1 else 0))
  | Some (QStr _) | Some QNone => Raise TypeError
  end.

(** [NTrialsInc] is stored from [np.sum], so the ratio is computed by
    NumPy: a zero divisor gives an infinity or NaN, not an exception. *)
Definition test_rejection (qm : gmap string qval) : result bool :=
  snr ← qm_num qm "SNR";
  let passed_SNR := F.gtb snr min_SNR in
  mfr ← qm_num qm "mFR";
  let passed_FR := F.gtb mfr min_FR in
  isivr ← qm_num qm "ISIvr";
  let passed_ISI := F.ltb isivr max_ISIvr in
  ntot ← qm_num qm "NTrialsTotal";
  let passed_NTotalTrs := F.gtb ntot min_n_trs in
  ninc ← qm_num qm "NTrialsInc";
  ntot' ← qm_num qm "NTrialsTotal";
  let inc_trs_ratio := F.div (F.mul (F.of_Z 100) ninc) ntot' in
  let passed_IncTrsRatio := F.gtb inc_trs_ratio min_inc_trs_ratio in
  (* test_passed.all() *)
  Ok (forallb id [passed_SNR; passed_FR; passed_ISI; passed_NTotalTrs;
                  passed_IncTrsRatio]).

(** The five criteria as the specification names them. *)
Definition crit_SNR (snr : float) : bool := F.gtb snr (F.lit 10 10).
Definition crit_FR (mfr : float) : bool := F.gtb mfr (F.lit 10 10).
Definition crit_ISI (isivr : float) : bool := F.ltb isivr (F.lit 10 10).
Definition crit_NTotal (ntot : float) : bool := F.gtb ntot (F.of_Z 20).
Definition crit_IncRatio (ninc ntot : float) : bool :=
  F.gtb (F.div (F.mul (F.of_Z 100) ninc) ntot) (F.of_Z 50).


(** ** Waveforms

    [Waveforms] is a [pd.DataFrame]: one row per spike, one column per
    sample, the column labels being the sample times.  Every row is as long
    as the list of columns; an entry that is missing reads as NaN. *)

Record DataFrame : Type := { df_columns : list float; df_rows : list (list float) }.

Definition df_column (df : DataFrame) (j : nat) : list float :=
  map (fun row => default F.nan (row !! j)) (df_rows df).

(** [np.array(df)] read as one flat array, row by row. *)
Definition df_values (df : DataFrame) : list float := concat (df_rows df).

(** Sums are accumulated from left to right, starting at zero.  NumPy adds
    long arrays pairwise, which can change the last bits of a sum; the sign
    of a sum of squares, which is what the properties below rest on, is the
    same in any order. *)
Definition f_sum (xs : list float) : float := fold_left F.add xs (F.of_Z 0).

Definition f_square (x : float) : float := F.mul x x.

(** The reductions of pandas skip NaN entries. *)
Definition dropna (xs : list float) : list float :=
  filter (fun x => F.is_nan x = false) xs.

(** [Series.mean()]. *)
Definition pd_mean (xs : list float) : float :=
  let ys := dropna xs in
  F.div (f_sum ys) (F.of_Z (Z.of_nat (length ys))).

(** [Series.std()]: the sample standard deviation, [ddof = 1]; fewer than
    two entries give NaN. *)
Definition pd_std (xs : list float) : float :=
  let ys := dropna xs in
  let count := Z.of_nat (length ys) in
  if count <=? 1 then F.nan
  else
    let avg := F.div (f_sum ys) (F.of_Z count) in
    let sqr := map (fun y => f_square (F.sub avg y)) ys in
    F.sqrt (F.div (f_sum sqr) (F.of_Z (count - 1))).

(** [ndarray.std()]: the population standard deviation, [ddof = 0], over
    all entries; NaN entries are not skipped. *)
Definition np_std (xs : list float) : float :=
  let n := Z.of_nat (length xs) in
  let arrmean := F.div (f_sum xs) (F.of_Z n) in
  let x := map (fun a => F.sub a arrmean) xs in
  F.sqrt (F.div (f_sum (map f_square x)) (F.of_Z n)).

(** ** calc_snr *)

(** [waveforms.mean()]: the mean waveform, one entry per column. *)
Definition wf_mean (waveforms : DataFrame) : list float :=
  imap (fun j _ => pd_mean (df_column waveforms j)) (df_columns waveforms).

(** [waveforms - wf_mean]: the mean waveform is taken off every row. *)
Definition wf_res (waveforms : DataFrame) : DataFrame :=
  {| df_columns := df_columns waveforms;
     df_rows := map (fun row => zip_with F.sub row (wf_mean waveforms))
                    (df_rows waveforms) |}.

Definition calc_snr (waveforms : DataFrame) : float :=
  if Z.of_nat (length (df_rows waveforms)) <? 2 then F.nan
  else F.div (pd_std (wf_mean waveforms)) (np_std (df_values (wf_res waveforms))).

(** Two identical waveforms, and two identical flat ones. *)
Definition wf_identical : DataFrame :=
  {| df_columns := map F.of_Z [0; 25];
     df_rows := [map F.of_Z [1; 2]; map F.of_Z [1; 2]] |}.


(** ** calc_waveform_stats *)

(** [np.sum(wfs == v)]. *)
Definition count_eq (v : float) (wfs : list float) : Z :=
  count_true (map (fun x => F.eqb x v) wfs).

(** "Is waveform set truncated?" *)
Definition is_truncated (wfs : list float) (minV maxV : float) : bool :=
  (1 <? count_eq minV wfs) || (1 <? count_eq maxV wfs).

Section WaveformStats.

(** The inner function [calc_wf_stats(x, y)] fits a cubic spline with
    SciPy and reads the duration and amplitude of one waveform off it; it
    is kept abstract.  Its arguments here are the two extreme voltages it
    closes over, the sample times and the waveform; its result is
    (duration, amplitude, number of valid samples). *)
Variable calc_wf_stats :
  float -> float -> list float -> list float -> result (float * float * Z).

Definition calc_waveform_stats (waveforms : DataFrame)
    : result (list (float * float * Z) * bool * float * float) :=
  let wfs := df_values waveforms in
  minV ← of_option ValueError (np_min wfs);
  maxV ← of_option ValueError (np_max wfs);
  let truncated := is_truncated wfs minV maxV in
  let x := df_columns waveforms in
  res ← mapM (calc_wf_stats minV maxV x) (df_rows waveforms);
  Ok (res, truncated, minV, maxV).

End WaveformStats.

(** The flag as the specification words it: more than one spike reaches
    the lowest voltage, or more than one reaches the highest. *)
Definition spikes_reaching (v : float) (rows : list (list float)) : Z :=
  count_true (map (fun row => existsb (fun x => F.eqb x v) row) rows).

Definition truncated_spec (rows : list (list float)) (minV maxV : float) : bool :=
  (1 <? spikes_reaching minV rows) || (1 <? spikes_reaching maxV rows).

(** Two spikes of twelve samples; the first one bottoms out at -5 on two
    successive samples. *)
Definition wf_clipped_once : DataFrame :=
  {| df_columns := map (fun k => F.of_Z (25 * k)) (seqZ 0 12);
     df_rows := [map F.of_Z [1; 2; 3; 4; -5; -5; 6; 7; 8; 9; 10; 11];
                 map F.of_Z [1; 2; 3; 4; -4; -3; 6; 7; 8; 9; 10; 10]] |}.

(** A stand-in for the spline fit, to run [calc_waveform_stats] on an
    example: durations and amplitudes are left undefined. *)
Definition wf_stats_undefined (minV maxV : float) (x y : list float)
    : result (float * float * Z) :=
  Ok (F.nan, F.nan, Z.of_nat (length x)).

(** ** test_drift *)

(** Python sequence indexing: a negative index counts from the end, an
    index out of range raises [IndexError]. *)
Definition py_index {A} (l : list A) (k : Z) : result A :=
  let n := Z.of_nat (length l) in
  if (0 <=? k) && (k <? n) then of_option IndexError (l !! Z.to_nat k)
  else if (- n <=? k) && (k <? 0) then of_option IndexError (l !! Z.to_nat (n + k))
  else Raise IndexError.

(** [MAX_DRIFT_PCT/100], a true division. *)
Definition drift_ratio : float := F.div (F.of_Z MAX_DRIFT_PCT) (F.of_Z 100).

(** The test that terminates a period. *)
Definition drift_exceeded (vmin vmax v2 : float) : bool :=
  F.gtb vmax (F.mul drift_ratio v2) || F.gtb v2 (F.mul drift_ratio vmin).

(** The inner loop [for j, v2 in enumerate(v[i:])], entered at index [j]
    with the current extremes.  It yields the value of [j] after the loop:
    the index before the one that broke out, or the last index. *)
Fixpoint drift_scan (vs : list float) (j : Z) (vmin vmax : float) : Z :=
  match vs with
  | [] => j - 1
  | v2 :: rest =>
      let vmin := py_min vmin v2 in
      let vmax := py_max vmax v2 in
      if drift_exceeded vmin vmax v2 then j - 1
      else drift_scan rest (j + 1) vmin vmax
  end.

(** [np.sum(tr_starts_arr < t)]. *)
Definition n_tr_before (tr_starts_arr : list float) (t : float) : Z :=
  count_true (map (fun x => F.ltb x t) tr_starts_arr).

(** One row of the table [prd_res]. *)
Record prd_row : Type := PrdRow {
  prd_start_i : Z;
  prd_end_i : Z;
  n_prd : Z;
  t_start : float;
  t_end : float;
  t_len : float;
  tr_start_i : Z;
  tr_end_i : Z;
  n_tr : Z
}.

(** The body of the outer loop for start bin [i]; [vs] is [v[i:]], whose
    head is [v1]. *)
Definition drift_period (tbins : list (float * float))
    (n_tr_prd_start n_tr_prd_end : list Z) (i : Z) (vs : list float)
    (v1 : float) : result prd_row :=
  let j := drift_scan vs 0 v1 v1 in
  let end_i := i + j in
  b1 ← py_index tbins i;
  b2 ← py_index tbins end_i;
  s ← py_index n_tr_prd_start i;
  e ← py_index n_tr_prd_end end_i;
  Ok {| prd_start_i := i; prd_end_i := end_i; n_prd := j + 1;
        t_start := b1.1; t_end := b2.2; t_len := F.sub b2.2 b1.1;
        tr_start_i := s; tr_end_i := e; n_tr := e - s |}.

(** The outer loop [for i, v1 in enumerate(v)], from index [i] on. *)
Fixpoint drift_rows (tbins : list (float * float))
    (n_tr_prd_start n_tr_prd_end : list Z) (i : Z) (vs : list float)
    : result (list prd_row) :=
  match vs with
  | [] => Ok []
  | v1 :: rest =>
      row ← drift_period tbins n_tr_prd_start n_tr_prd_end i vs v1;
      rows ← drift_rows tbins n_tr_prd_start n_tr_prd_end (i + 1) rest;
      Ok (row :: rows)
  end.

(** [Series.argmax]: position of the first maximum; an empty series
    raises. *)
Fixpoint argmax_from (xs : list Z) (i best_i : nat) (best : Z) : nat :=
  match xs with
  | [] => best_i
  | x :: rest =>
      if best <? x then argmax_from rest (S i) i x
      else argmax_from rest (S i) best_i best
  end.

Definition argmax (xs : list Z) : result nat :=
  match xs with
  | [] => Raise ValueError
  | x :: rest => Ok (argmax_from rest 1 0 x)
  end.

Section Drift.

(** Helpers of [seal.util], which is not part of the sources at hand:
    [indices_in_window v vmin vmax] is the mask of the entries of [v] in
    the window, [list_to_quantity] turns a series of times into an array. *)
Variable indices_in_window : list float -> float -> float -> list bool.
Variable list_to_quantity : list float -> list float.

(** The table [prd_res]: one period per start bin. *)
Definition drift_periods (v : list float) (tbins : list (float * float))
    (tr_starts : list float) : result (list prd_row) :=
  let tr_starts_arr := list_to_quantity tr_starts in
  let n_tr_prd_start := map (fun b => n_tr_before tr_starts_arr b.1) tbins in
  let n_tr_prd_end := map (fun b => n_tr_before tr_starts_arr b.2) tbins in
  drift_rows tbins n_tr_prd_start n_tr_prd_end 0 v.

(** The row of the period covering most trials. *)
Definition drift_search (v : list float) (tbins : list (float * float))
    (tr_starts : list float) : result prd_row :=
  prd_res ← drift_periods v tbins tr_starts;
  idx ← argmax (map n_tr prd_res);
  of_option IndexError (prd_res !! idx).

(** The trial mask [(index >= first_tr) & (index < last_tr)] over the
    default index [0 .. n-1]. *)
Definition trial_mask (n : nat) (first_tr last_tr : Z) : list bool :=
  map (fun k => (first_tr <=? k) && (k <? last_tr)) (seqZ 0 (Z.of_nat n)).

Definition test_drift (t v : list float) (tbins : list (float * float))
    (tr_starts spk_times : list float)
    : result (float * float * list bool * list bool * list bool) :=
  best ← drift_search v tbins tr_starts;
  let prd1 := prd_start_i best in
  let prd2 := prd_end_i best in
  let t1_inc := t_start best in
  let t2_inc := t_end best in
  let first_tr := tr_start_i best in
  let last_tr := tr_end_i best in
  let prd_inc :=
    indices_in_window (map F.of_Z (seqZ 0 (Z.of_nat (length tbins))))
                      (F.of_Z prd1) (F.of_Z prd2) in
  let tr_inc := trial_mask (length tr_starts) first_tr last_tr in
  let spk_inc := indices_in_window spk_times t1_inc t2_inc in
  Ok (t1_inc, t2_inc, prd_inc, tr_inc, spk_inc).

End Drift.

(** *** The search as the specification words it *)

(** Running extremes after the bins at offsets [0 .. d] of a candidate
    window [vs] have been taken in. *)
Definition run_min (vs : list float) (d : nat) : float :=
  match vs with
  | [] => F.nan
  | v1 :: _ => fold_left py_min (take (S d) vs) v1
  end.

Definition run_max (vs : list float) (d : nat) : float :=
  match vs with
  | [] => F.nan
  | v1 :: _ => fold_left py_max (take (S d) vs) v1
  end.

(** The window stops at offset [d]: the running maximum exceeds 2.0 times
    the current rate, or the current rate exceeds 2.0 times the running
    minimum. *)
Definition stops_at (vs : list float) (d : nat) : bool :=
  match vs !! d with
  | None => false
  | Some cur =>
      F.gtb (run_max vs d) (F.mul (F.lit 20 10) cur)
      || F.gtb cur (F.mul (F.lit 20 10) (run_min vs d))
  end.

(** [len] is the number of bins of the window starting [vs]: no bin of the
    window stops it, and it is followed by the first stopping bin or by the
    end of the session. *)
Definition window_length (vs : list float) (len : nat) : Prop :=
  (forall d, (d < len)%nat -> stops_at vs d = false) /\
  (len = length vs \/ stops_at vs len = true).

(** [idx] is the first position of a maximum of [xs]. *)
Definition first_argmax (xs : list Z) (idx : nat) : Prop :=
  exists m, xs !! idx = Some m /\
    (forall k x, xs !! k = Some x -> x <= m) /\
    (forall k x, (k < idx)%nat -> xs !! k = Some x -> x < m).

(** What the specification says of the table row for start bin [i], whose
    candidate window runs over [vs = v[i:]]: the window length, its bin
    and time bounds, and the trials it covers, counted as the trial starts
    before the end boundary minus those before the start boundary. *)
Definition period_spec (tbins : list (float * float)) (tr_starts_arr : list float)
    (i : Z) (vs : list float) (row : prd_row) : Prop :=
  exists (len : nat) (b1 b2 : float * float),
    window_length vs len /\
    py_index tbins i = Ok b1 /\
    py_index tbins (i + Z.of_nat len - 1) = Ok b2 /\
    row = {| prd_start_i := i;
             prd_end_i := i + Z.of_nat len - 1;
             n_prd := Z.of_nat len;
             t_start := b1.1;
             t_end := b2.2;
             t_len := F.sub b2.2 b1.1;
             tr_start_i := n_tr_before tr_starts_arr b1.1;
             tr_end_i := n_tr_before tr_starts_arr b2.2;
             n_tr := n_tr_before tr_starts_arr b2.2
                     - n_tr_before tr_starts_arr b1.1 |}.

(** *** A session to run the search on *)

(** Modelled from the spec: [util.indices_in_window], whose module is not
    among the sources; the specification's inclusion masks follow the
    half-open convention, an entry is in the window when
    [vmin <= x < vmax]. *)
Definition window_mask (v : list float) (vmin vmax : float) : list bool :=
  map (fun x => F.leb vmin x && F.ltb x vmax) v.

(** Four bins of 120 s with rates 1, 5, 6 and 20 spikes/s, and twelve
    trials starting every 40 s. *)
Definition session_bins : list (float * float) :=
  map (fun k => (F.of_Z (120 * k), F.of_Z (120 * (k + 1)))) (seqZ 0 4).

Definition session_rates : list float := map F.of_Z [1; 5; 6; 20].

Definition session_trials : list float :=
  map (fun k => F.of_Z (40 * k)) (seqZ 0 12).

Definition session_spikes : list float := map F.of_Z [3; 130; 250; 400].

(** *** Well-formed input of the search *)

(** Time bins as [time_bin_data] cuts them: each bin ends no earlier than
    it starts, and the next bin starts no earlier than it ends. *)
Definition bins_ordered (tbins : list (float * float)) : Prop :=
  (forall k b, tbins !! k = Some b -> F.leb b.1 b.2 = true) /\
  (forall k b b', tbins !! k = Some b -> tbins !! S k = Some b' ->
                  F.leb b.2 b'.1 = true).

(** A firing rate: a proper double that is not below zero. *)
Definition rate_ok (x : float) : Prop :=
  F.valid x = true /\ F.leb (F.of_Z 0) x = true.

(** ** The unit (seal/object/unit.py)

    The fields of [Unit] that quality control reads or writes. *)

Record SpikeParamsT : Type := {
  sp_time : list float;
  sp_included : list bool;
  sp_duration : option (list float);
  sp_amplitude : option (list float);
  sp_nvalid : option (list Z)
}.

Record TrialParamsT : Type := {
  TrialStart : list float;
  TrialStop : list float;
  tp_included : list bool
}.

Record Unit : Type := {
  UnitParams : gmap string qval;
  Waveforms : DataFrame;
  SpikeParams : SpikeParamsT;
  TrialParams : TrialParamsT;
  QualityMetrics : gmap string qval
}.

Definition set_UnitParams (f : gmap string qval -> gmap string qval)
    (u : Unit) : Unit :=
  {| UnitParams := f (UnitParams u); Waveforms := Waveforms u;
     SpikeParams := SpikeParams u; TrialParams := TrialParams u;
     QualityMetrics := QualityMetrics u |}.

Definition set_SpikeParams (f : SpikeParamsT -> SpikeParamsT) (u : Unit) : Unit :=
  {| UnitParams := UnitParams u; Waveforms := Waveforms u;
     SpikeParams := f (SpikeParams u); TrialParams := TrialParams u;
     QualityMetrics := QualityMetrics u |}.

Definition set_TrialParams (f : TrialParamsT -> TrialParamsT) (u : Unit) : Unit :=
  {| UnitParams := UnitParams u; Waveforms := Waveforms u;
     SpikeParams := SpikeParams u; TrialParams := f (TrialParams u);
     QualityMetrics := QualityMetrics u |}.

Definition set_QualityMetrics (f : gmap string qval -> gmap string qval)
    (u : Unit) : Unit :=
  {| UnitParams := UnitParams u; Waveforms := Waveforms u;
     SpikeParams := SpikeParams u; TrialParams := TrialParams u;
     QualityMetrics := f (QualityMetrics u) |}.

(** *** Methods mutate the unit and may raise

    A computation on a unit yields a result or an exception, and the unit
    as the call leaves it; what was written before an exception stays
    written. *)

Definition M (A : Type) : Type := Unit -> result A * Unit.

Definition m_ret {A} (a : A) : M A := fun u => (Ok a, u).

Definition m_bind {A B} (c : M A) (k : A -> M B) : M B :=
  fun u =>
    match c u with
    | (Ok a, u') => k a u'
    | (Raise e, u') => (Raise e, u')
    end.

Definition m_lift {A} (r : result A) : M A := fun u => (r, u).

Definition m_get : M Unit := fun u => (Ok u, u).

Definition m_modify (f : Unit -> Unit) : M unit := fun u => (Ok tt, f u).

Notation "x <- c ;; k" := (m_bind c (fun x => k))
  (at level 100, c at next level, right associativity).
Notation "c ;; k" := (m_bind c (fun _ => k))
  (at level 100, right associativity).

(** Truth value of a series entry. *)
Definition truthy (v : qval) : bool :=
  match v with
  | QNone => false
  | QBool b => b
  | QNum f => negb (F.eqb f (F.of_Z 0))
  | QStr s => negb (String.eqb s "")
  end.

Definition is_empty : M bool :=
  u <- m_get ;;
  im_empty <- m_lift (of_option KeyError (UnitParams u !! "empty"%string)) ;;
  m_ret (truthy im_empty).

Definition set_excluded (to_excl : bool) : M unit :=
  m_modify (set_UnitParams <["excluded"%string := QBool to_excl]>).

(** Selection by a boolean mask. *)
Definition mask_select {A} (mask : list bool) (xs : list A) : list A :=
  map snd (filter (fun p => p.1 = true) (zip mask xs)).

Definition df_select (mask : list bool) (df : DataFrame) : DataFrame :=
  {| df_columns := df_columns df; df_rows := mask_select mask (df_rows df) |}.

(** [Series.min()] and [Series.max()] skip NaN; on an empty series they
    are NaN. *)
Definition pd_min (xs : list float) : float := default F.nan (np_min (dropna xs)).
Definition pd_max (xs : list float) : float := default F.nan (np_max (dropna xs)).

Definition VMIN : float := F.of_Z (-2048).
Definition VMAX : float := F.of_Z 2047.
Definition MIN_BIN_LEN : float := F.of_Z 120.

(** What [test_qm] returns for a unit that is not empty. *)
Record qm_result : Type := {
  res_tbin_vmid : list float;
  res_rate_t : list float;
  res_t1_inc : float;
  res_t2_inc : float;
  res_prd_inc : list bool;
  res_tr_inc : list bool;
  res_spk_inc : list bool
}.

Definition get_start_stop_times (spk_times tr_starts tr_stops : list float)
    : float * float :=
  let tfirst_spk := pd_min spk_times in
  let tlast_spk := pd_max spk_times in
  let tfirst_trl := pd_min tr_starts in
  let tlast_trl := pd_max tr_stops in
  (py_min tfirst_spk tfirst_trl, py_max tlast_spk tlast_trl).

Section QualityControl.

(** Code that is not modelled: the spline fit, three helpers of
    [seal.util], and the two routines that read the firing rates of the
    unit ([calc_baseline_rate] and [test_task_relatedness], which go
    through [Unit.get_prd_rates] and [util.sign_periods]). *)
Variable calc_wf_stats :
  float -> float -> list float -> list float -> result (float * float * Z).
Variable indices_in_window : list float -> float -> float -> list bool.
Variable list_to_quantity : list float -> list float.
Variable quantity_linspace : float -> float -> Z -> list float.
Variable calc_baseline_rate : Unit -> result float.
Variable test_task_relatedness : Unit -> result bool.

Definition time_bin_data (spk_times : list float) (waveforms : DataFrame)
    (tr_starts tr_stops : list float)
    : result (list (float * float) * list float * list DataFrame
              * list (list float)) :=
  let '(t_start, t_stop) := get_start_stop_times spk_times tr_starts tr_stops in
  n ← of_option ValueError (F.floor (F.div (F.sub t_stop t_start) MIN_BIN_LEN));
  let nbins := Z.max n 1 in
  let tbin_lims := quantity_linspace t_start t_stop (nbins + 1) in
  let tbins := zip tbin_lims (tail tbin_lims) in
  let tbin_vmid := map (fun b => F.div (F.add b.1 b.2) (F.of_Z 2)) tbins in
  let spk_idx_binned := map (fun b => indices_in_window spk_times b.1 b.2) tbins in
  let wf_binned := map (fun spk_idx => df_select spk_idx waveforms) spk_idx_binned in
  let spk_times_binned :=
    map (fun spk_idx => mask_select spk_idx spk_times) spk_idx_binned in
  Ok (tbins, tbin_vmid, wf_binned, spk_times_binned).

Definition set_inc_trials (first_tr last_tr : Z)
    (tr_starts tr_stops spk_times tbin_vmid : list float)
    : result (float * float * list bool * list bool * list bool) :=
  let tr_inc := trial_mask (length tr_starts) first_tr last_tr in
  let '(tstart, tstop) := get_start_stop_times spk_times tr_starts tr_stops in
  t1_inc ← (if first_tr =? 0 then Ok tstart
            else if first_tr <? 0 then Raise KeyError
            else of_option KeyError (tr_starts !! Z.to_nat first_tr));
  t2_inc ← (if last_tr =? Z.of_nat (length tr_starts) then Ok tstop
            else if last_tr <? 0 then Raise KeyError
            else of_option KeyError (tr_starts !! Z.to_nat last_tr));
  let prd_inc := map (fun t => F.geb t t1_inc && F.leb t t2_inc) tbin_vmid in
  let spk_inc := indices_in_window spk_times t1_inc t2_inc in
  Ok (t1_inc, t2_inc, prd_inc, tr_inc, spk_inc).

(** [Unit.update_included_trials]. *)
Definition update_included_trials (tr_inc : list bool) : M unit :=
  let tr_exc := map negb tr_inc in
  m_modify (set_TrialParams (fun tp =>
    {| TrialStart := TrialStart tp; TrialStop := TrialStop tp;
       tp_included := tr_inc |})) ;;
  u <- m_get ;;
  m_modify (set_QualityMetrics
    <["NTrialsTotal"%string :=
        QNum (F.of_Z (Z.of_nat (length (TrialStart (TrialParams u)))))]>) ;;
  m_modify (set_QualityMetrics
    <["NTrialsInc"%string := QNum (F.of_Z (count_true tr_inc))]>) ;;
  m_modify (set_QualityMetrics
    <["NTrialsExc"%string := QNum (F.of_Z (count_true tr_exc))]>) ;;
  let times := sp_time (SpikeParams u) in
  let '(t1, t2) :=
    if forallb id tr_inc then (pd_min times, pd_max times)
    else (pd_min (mask_select tr_inc (TrialStart (TrialParams u))),
          pd_max (mask_select tr_inc (TrialStop (TrialParams u)))) in
  let spk_inc := indices_in_window times t1 t2 in
  m_modify (set_SpikeParams (fun sp =>
    {| sp_time := sp_time sp; sp_included := spk_inc;
       sp_duration := sp_duration sp; sp_amplitude := sp_amplitude sp;
       sp_nvalid := sp_nvalid sp |})).

Definition set_wf_stats (wf_stats : list (float * float * Z)) : M unit :=
  m_modify (set_SpikeParams (fun sp =>
    {| sp_time := sp_time sp; sp_included := sp_included sp;
       sp_duration := Some (map (fun r => r.1.1) wf_stats);
       sp_amplitude := Some (map (fun r => r.1.2) wf_stats);
       sp_nvalid := Some (map snd wf_stats) |})).

Definition set_unit_param (key : string) (v : qval) : M unit :=
  m_modify (set_UnitParams <[key := v]>).

Definition set_metric (key : string) (v : qval) : M unit :=
  m_modify (set_QualityMetrics <[key := v]>).

Definition test_qm (include : option bool) (first_tr last_tr : option Z)
    : M (option qm_result) :=
  empty <- is_empty ;;
  if empty then m_ret None
  else
    u <- m_get ;;
    let waveforms := Waveforms u in
    let spk_times := sp_time (SpikeParams u) in
    stats <- m_lift (calc_waveform_stats calc_wf_stats waveforms) ;;
    let '(wf_stats, truncated, minV, maxV) := stats in
    set_wf_stats wf_stats ;;
    set_unit_param "truncated" (QBool truncated) ;;
    set_unit_param "minV" (QNum (py_min minV VMIN)) ;;
    set_unit_param "maxV" (QNum (py_max maxV VMAX)) ;;
    let tr_starts := TrialStart (TrialParams u) in
    let tr_stops := TrialStop (TrialParams u) in
    tbinned_stats <-
      m_lift (time_bin_data spk_times waveforms tr_starts tr_stops) ;;
    let '(tbins, tbin_vmid, wf_binned, spk_times_binned) := tbinned_stats in
    let rate_t :=
      zip_with (fun spkt b => F.div (F.of_Z (Z.of_nat (length spkt)))
                                    (F.sub b.2 b.1))
               spk_times_binned tbins in
    res <-
      m_lift (match first_tr, last_tr with
              | Some first_tr, Some last_tr =>
                  set_inc_trials first_tr last_tr tr_starts tr_stops
                                 spk_times tbin_vmid
              | _, _ =>
                  test_drift indices_in_window list_to_quantity
                             tbin_vmid rate_t tbins tr_starts spk_times
              end) ;;
    let '(t1_inc, t2_inc, prd_inc, tr_inc, spk_inc) := res in
    update_included_trials tr_inc ;;
    let snr := calc_snr (df_select spk_inc waveforms) in
    let mean_rate :=
      F.div (F.of_Z (count_true spk_inc)) (F.sub t2_inc t1_inc) in
    let '(true_spikes, ISIvr) :=
      isi_stats (Quantity (mask_select spk_inc spk_times) Sec) in
    let unit_type := classify_unit (PyFloat snr) true_spikes in
    set_metric "SNR" (QNum snr) ;;
    u <- m_get ;;
    duration <- m_lift (of_option KeyError (sp_duration (SpikeParams u))) ;;
    set_metric "mWfDur" (QNum (pd_mean (mask_select spk_inc duration))) ;;
    set_metric "mFR" (QNum mean_rate) ;;
    set_metric "ISIvr" (QNum (to_float ISIvr)) ;;
    set_metric "TrueSpikes" (QNum (to_float true_spikes)) ;;
    set_metric "UnitType" (QStr unit_type) ;;
    u <- m_get ;;
    baseline <- m_lift (calc_baseline_rate u) ;;
    set_metric "baseline" (QNum baseline) ;;
    u <- m_get ;;
    task_related <- m_lift (test_task_relatedness u) ;;
    set_metric "TaskRelated" (QBool task_related) ;;
    include <- match include with
               | Some include => m_ret include
               | None => u <- m_get ;; m_lift (test_rejection (QualityMetrics u))
               end ;;
    set_excluded (negb include) ;;
    m_ret (Some {| res_tbin_vmid := tbin_vmid; res_rate_t := rate_t;
                   res_t1_inc := t1_inc; res_t2_inc := t2_inc;
                   res_prd_inc := prd_inc; res_tr_inc := tr_inc;
                   res_spk_inc := spk_inc |}).

End QualityControl.

(** *** Units to run quality control on *)

(** Modelled from the spec: [util.quantity_linspace], whose module is not
    among the sources; the session is cut into bins of equal width, so the
    [num] limits are evenly spaced from [start] to [stop], both included. *)
Definition linspace (start stop : float) (num : Z) : list float :=
  let step := F.div (F.sub stop start) (F.of_Z (num - 1)) in
  map (fun k => if k =? num - 1 then stop
                else F.add start (F.mul (F.of_Z k) step))
      (seqZ 0 num).

(** Stand-ins for the two routines that read firing rates. *)
Definition baseline_undefined (u : Unit) : result float := Ok F.nan.
Definition not_task_related (u : Unit) : result bool := Ok false.




(** *** Further methods of the unit *)

(** [Unit.is_excluded] hands back the entry itself. *)
Definition is_excluded : M qval :=
  u <- m_get ;;
  m_lift (of_option KeyError (UnitParams u !! "excluded"%string)).

(** [Unit.inc_trials]. *)
Definition inc_trials : M (list bool) :=
  u <- m_get ;; m_ret (tp_included (TrialParams u)).



(** Rates that stay within the drift ratio over the four bins. *)
Definition steady_rates : list float := map F.of_Z [5; 6; 5; 7].

(** *** Reasoning about calls on a unit *)

(** What the recording itself consists of: waveforms, spike times, trial
    start and stop times, and the flag that tells an empty unit. *)
Definition recorded (u : Unit)
    : DataFrame * list float * list float * list float * option qval :=
  (Waveforms u, sp_time (SpikeParams u), TrialStart (TrialParams u),
   TrialStop (TrialParams u), UnitParams u !! "empty"%string).

(** A call that leaves the recording as it was, whether it returns or
    raises. *)
Definition keeps_recorded {A} (c : M A) : Prop :=
  forall u, recorded (snd (c u)) = recorded u.

(** [post c u Q]: if the call [c] on the unit [u] returns, its result and
    the unit it leaves satisfy [Q]. *)
Definition post {A} (c : M A) (u : Unit) (Q : A -> Unit -> Prop) : Prop :=
  match c u with
  | (Ok a, u') => Q a u'
  | (Raise _, _) => True
  end.

(** [run_alike c1 c2 u Q]: on the unit [u] the calls [c1] and [c2] either
    both return, the same result, and leave units related by [Q], or both
    raise, the same exception, and leave the same unit. *)
Definition run_alike {A} (c1 c2 : M A) (u : Unit)
    (Q : A -> Unit -> Unit -> Prop) : Prop :=
  match c1 u, c2 u with
  | (Ok a1, u1), (Ok a2, u2) => a1 = a2 /\ Q a1 u1 u2
  | (Raise e1, u1), (Raise e2, u2) => e1 = e2 /\ u1 = u2
  | _, _ => False
  end.


(** A unit with the four spikes and twelve trials of the session above;
    every trial lasts 30 s. *)
Definition unit_session : Unit :=
  {| UnitParams := <["empty"%string := QBool false]>
                   (<["excluded"%string := QBool false]> ∅);
     Waveforms := {| df_columns := map F.of_Z [0; 25; 50];
                     df_rows := [map F.of_Z [1; -6; 4]; map F.of_Z [2; -7; 3];
                                 map F.of_Z [1; -5; 5]; map F.of_Z [0; -6; 4]] |};
     SpikeParams := {| sp_time := session_spikes;
                       sp_included := [true; true; true; true];
                       sp_duration := None; sp_amplitude := None;
                       sp_nvalid := None |};
     TrialParams := {| TrialStart := session_trials;
                       TrialStop := map (fun k => F.of_Z (40 * k + 30))
                                        (seqZ 0 12);
                       tp_included := [] |};
     QualityMetrics := ∅ |}.

(** ** The order of doubles

    [SFcompare] orders the numbers like the lexicographic order on
    (class, exponent, mantissa), with the class -2 for minus infinity, -1
    for negative numbers, 0 for the zeros, 1 for positive numbers and 2
    for plus infinity. *)

Definition key (x : float) : Z * (Z * Z) :=
  match x with
  | S754_nan | S754_zero _ => (0, (0, 0))
  | S754_infinity true => (-2, (0, 0))
  | S754_infinity false => (2, (0, 0))
  | S754_finite false m e => (1, (e, Z.pos m))
  | S754_finite true m e => (-1, (- e, Z.neg m))
  end.

Definition lex_lt (a b : Z * (Z * Z)) : Prop :=
  a.1 < b.1 \/
  (a.1 = b.1 /\ (a.2.1 < b.2.1 \/ (a.2.1 = b.2.1 /\ a.2.2 < b.2.2))).

Definition lex_cmp (a b : Z * (Z * Z)) (c : comparison) : Prop :=
  match c with
  | Lt => lex_lt a b
  | Eq => a = b
  | Gt => lex_lt b a
  end.

(** * Properties *)

(** ** Comparisons with NaN *)

Lemma leb_nan_l (x : float) : F.leb F.nan x = false.
Proof. reflexivity. Qed.

Lemma leb_nan_r (x : float) : F.leb x F.nan = false.
Proof. destruct x; reflexivity. Qed.

Lemma ltb_nan_l (x : float) : F.ltb F.nan x = false.
Proof. reflexivity. Qed.

Lemma ltb_nan_r (x : float) : F.ltb x F.nan = false.
Proof. destruct x; reflexivity. Qed.

Lemma is_nan_eq (x : float) : F.is_nan x = true -> x = F.nan.
Proof. destruct x; simpl; intros H; try discriminate; reflexivity. Qed.

Lemma py_is_nan_eq (n : pynum) : py_is_nan n = true -> n = PyFloat F.nan.
Proof.
  destruct n as [z | f]; simpl; intros H; [discriminate |].
  apply is_nan_eq in H. now subst f.
Qed.

Lemma py_ge_nan_l (n : pynum) : py_ge (PyFloat F.nan) n = false.
Proof. unfold py_ge, F.geb. simpl. apply leb_nan_r. Qed.


(** ** isi_stats on degenerate spike trains *)

(** C4: on an empty spike-time sequence [isi_stats] returns (NaN, NaN); on
    a sequence with a single spike it returns (100, 0).  The function is
    total, so neither call raises. *)
Theorem isi_stats_degenerate (u : tunit) (t : float) :
  isi_stats (Quantity [] u) = (PyFloat F.nan, PyFloat F.nan) /\
  isi_stats (Quantity [t] u) = (PyInt 100, PyInt 0).
Proof. split; reflexivity. Qed.

(** ** classify_unit never labels an undefined unit as single *)

(** C10: if the SNR or the true-spike percentage is NaN, [classify_unit]
    answers "multi unit". *)
Theorem classify_unit_nan (snr true_spikes : pynum) :
  py_is_nan snr = true \/ py_is_nan true_spikes = true ->
  classify_unit snr true_spikes = "multi unit"%string.
Proof.
  intros [H | H]; apply py_is_nan_eq in H; subst; unfold classify_unit.
  - rewrite (py_ge_nan_l (PyFloat (F.lit 20 10))).
    now rewrite andb_false_r.
  - now rewrite (py_ge_nan_l (PyInt 90)).
Qed.

Example classify_unit_single :
  classify_unit (PyFloat (F.lit 25 10)) (PyFloat (F.of_Z 95))
  = "single unit"%string.
Proof. reflexivity. Qed.

Example classify_unit_low_snr :
  classify_unit (PyFloat (F.lit 15 10)) (PyInt 100) = "multi unit"%string.
Proof. reflexivity. Qed.

Lemma classify_unit_nan_witness :
  classify_unit (PyFloat F.nan) (PyInt 100) = "multi unit"%string /\
  classify_unit (PyFloat (F.of_Z 5)) (PyFloat F.nan) = "multi unit"%string.
Proof.
  split.
  - apply (classify_unit_nan (PyFloat F.nan) (PyInt 100)). left. reflexivity.
  - apply (classify_unit_nan (PyFloat (F.of_Z 5)) (PyFloat F.nan)).
    right. reflexivity.
Defined.

(** ** The true-spike estimate *)



(** ** The scenario with eight spikes *)

(** C7, as the code behaves: of the seven intervals of the spike train
    0, 1, 2, 3, 100, 101, 102, 103 ms none is strictly below 1 ms (six are
    exactly 1 ms), so the violation percentage is 0. *)
Theorem isi_stats_scenario :
  length (isi_ms scenario_spikes) = 7%nat /\
  n_ISI_vr scenario_spikes = 0 /\
  isi_stats scenario_spikes
  = (PyFloat (F.of_Z 100), PyFloat (S754_zero false)).
Proof. vm_compute. repeat split. Qed.

(** With spikes at 0, 0.5, 2 and 3 ms one interval of three is below the
    threshold. *)
Example isi_stats_one_violation :
  n_ISI_vr (Quantity [F.of_Z 0; F.lit 5 10; F.of_Z 2; F.of_Z 3] Msec) = 1 /\
  snd (isi_stats (Quantity [F.of_Z 0; F.lit 5 10; F.of_Z 2; F.of_Z 3] Msec))
  = PyFloat (F.div (F.of_Z 100) (F.of_Z 3)).
Proof. vm_compute. split; reflexivity. Qed.

(** C7, as stated, fails: the count is not 2 and the percentage is below
    28, far from 100*2/7. *)
Lemma isi_stats_scenario_not_two :
  n_ISI_vr scenario_spikes <> 2 /\
  (forall p, snd (isi_stats scenario_spikes) = PyFloat p ->
             F.ltb p (F.of_Z 28) = true).
Proof.
  split.
  - vm_compute. discriminate.
  - intros p Hp. vm_compute in Hp. injection Hp as <-. reflexivity.
Qed.

(** ** The rejection test *)




Lemma qm_num_QNum (qm : gmap string qval) (key : string) (f : float) :
  qm !! key = Some (QNum f) -> qm_num qm key = Ok f.
Proof. intros H. unfold qm_num. now rewrite H. Qed.



(** ** The drift search *)

Lemma drift_ratio_eq : drift_ratio = F.lit 20 10.
Proof. reflexivity. Qed.

Lemma fold_left_snoc {A B} (f : A -> B -> A) (l : list B) (x : B) (a : A) :
  fold_left f (l ++ [x]) a = f (fold_left f l a) x.
Proof. now rewrite fold_left_app. Qed.

Lemma take_S_middle {A} (pre : list A) (x : A) (suf : list A) :
  take (S (length pre)) (pre ++ x :: suf) = pre ++ [x].
Proof.
  replace (pre ++ x :: suf) with ((pre ++ [x]) ++ suf)
    by now rewrite <- app_assoc.
  rewrite take_app_le by (rewrite length_app; simpl; lia).
  apply take_ge. rewrite length_app. simpl. lia.
Qed.

(** At the bin that follows the prefix [pre], the loop's test is the
    specification's stopping condition. *)
Lemma drift_exceeded_stops_at (v1 : float) (pre : list float) (v2 : float)
    (suf : list float) :
  head (pre ++ v2 :: suf) = Some v1 ->
  drift_exceeded (py_min (fold_left py_min pre v1) v2)
                 (py_max (fold_left py_max pre v1) v2) v2
  = stops_at (pre ++ v2 :: suf) (length pre).
Proof.
  intros Hhd. unfold stops_at, drift_exceeded.
  rewrite list_lookup_middle by reflexivity.
  rewrite drift_ratio_eq. unfold run_max, run_min.
  destruct (pre ++ v2 :: suf) as [| h tl] eqn:Hvs;
    [now destruct pre |].
  simpl in Hhd. injection Hhd as ->.
  rewrite <- Hvs, take_S_middle, !fold_left_snoc. reflexivity.
Qed.

(** The inner loop returns the window length minus one. *)
Lemma drift_scan_window (v1 : float) (suf pre : list float) :
  (forall d, (d < length pre)%nat -> stops_at (pre ++ suf) d = false) ->
  (suf <> [] -> head (pre ++ suf) = Some v1) ->
  exists len : nat,
    drift_scan suf (Z.of_nat (length pre))
               (fold_left py_min pre v1) (fold_left py_max pre v1)
    = Z.of_nat len - 1 /\
    (length pre <= len <= length (pre ++ suf))%nat /\
    window_length (pre ++ suf) len.
Proof.
  revert pre. induction suf as [| v2 rest IH]; intros pre Hpre Hhd.
  - exists (length pre). rewrite app_nil_r in *. simpl.
    repeat split; try lia; auto.
  - specialize (Hhd ltac:(discriminate)). cbn [drift_scan].
    rewrite (drift_exceeded_stops_at v1 pre v2 rest Hhd).
    destruct (stops_at (pre ++ v2 :: rest) (length pre)) eqn:Hstop.
    + exists (length pre). rewrite length_app. simpl.
      repeat split; try lia; auto.
    + destruct (IH (pre ++ [v2])) as (len & Hscan & Hlen & Hwin).
      * intros d Hd. rewrite <- app_assoc. simpl.
        rewrite length_app in Hd. simpl in Hd.
        destruct (decide (d = length pre)) as [-> | Hne]; [exact Hstop |].
        apply Hpre. lia.
      * intros _. rewrite <- app_assoc. exact Hhd.
      * exists len. rewrite <- app_assoc in Hwin, Hlen. simpl in Hwin, Hlen.
        rewrite length_app in Hscan, Hlen. simpl in Hscan, Hlen.
        rewrite !fold_left_snoc in Hscan.
        replace (Z.of_nat (length pre) + 1)
          with (Z.of_nat (length pre + 1)) by lia.
        repeat split; try lia; apply Hwin.
Qed.

Lemma drift_scan_start (v1 : float) (rest : list float) :
  exists len : nat,
    drift_scan (v1 :: rest) 0 v1 v1 = Z.of_nat len - 1 /\
    (len <= length (v1 :: rest))%nat /\
    window_length (v1 :: rest) len.
Proof.
  destruct (drift_scan_window v1 (v1 :: rest) []) as (len & H1 & H2 & H3).
  - intros d Hd. simpl in Hd. lia.
  - reflexivity.
  - exists len. simpl in *. repeat split; try lia; try apply H3. exact H1.
Qed.

Lemma py_index_in_range {A} (l : list A) (k : Z) :
  - Z.of_nat (length l) <= k < Z.of_nat (length l) ->
  exists a, py_index l k = Ok a.
Proof.
  intros Hk. unfold py_index.
  destruct (Z.leb_spec 0 k), (Z.ltb_spec k (Z.of_nat (length l)));
    cbn [andb]; try lia.
  - destruct (lookup_lt_is_Some_2 l (Z.to_nat k)) as [a Ha]; [lia |].
    exists a. now rewrite Ha.
  - destruct (Z.leb_spec (- Z.of_nat (length l)) k), (Z.ltb_spec k 0);
      cbn [andb]; try lia.
    destruct (lookup_lt_is_Some_2 l (Z.to_nat (Z.of_nat (length l) + k)))
      as [a Ha]; [lia |].
    exists a. now rewrite Ha.
Qed.

Lemma py_index_map {A B} (f : A -> B) (l : list A) (k : Z) (a : A) :
  py_index l k = Ok a -> py_index (map f l) k = Ok (f a).
Proof.
  unfold py_index. rewrite length_map.
  assert (Hlk : forall n, of_option IndexError (l !! n) = Ok a ->
                          of_option IndexError (map f l !! n) = Ok (f a)).
  { intros n. rewrite list_lookup_fmap. destruct (l !! n); simpl; [| easy].
    now intros [= ->]. }
  destruct (_ && _); [apply Hlk |].
  destruct (_ && _); [apply Hlk | easy].
Qed.

(** One pass of the outer loop builds the row the specification
    describes. *)
Lemma drift_period_spec (tbins : list (float * float)) (arr : list float)
    (i : Z) (v1 : float) (rest : list float) :
  0 <= i ->
  i + Z.of_nat (length (v1 :: rest)) <= Z.of_nat (length tbins) ->
  exists row,
    drift_period tbins (map (fun b => n_tr_before arr b.1) tbins)
                 (map (fun b => n_tr_before arr b.2) tbins) i (v1 :: rest) v1
    = Ok row /\
    period_spec tbins arr i (v1 :: rest) row.
Proof.
  intros Hi Hn. unfold drift_period.
  destruct (drift_scan_start v1 rest) as (len & Hscan & Hlen & Hwin).
  rewrite Hscan. simpl length in Hn, Hlen.
  destruct (py_index_in_range tbins i) as [b1 Hb1]; [lia |].
  destruct (py_index_in_range tbins (i + (Z.of_nat len - 1))) as [b2 Hb2];
    [lia |].
  rewrite Hb1, Hb2. cbn [mbind result_bind].
  rewrite (py_index_map (fun b => n_tr_before arr b.1) _ _ _ Hb1).
  rewrite (py_index_map (fun b => n_tr_before arr b.2) _ _ _ Hb2).
  cbn [mbind result_bind]. eexists. split; [reflexivity |].
  exists len, b1, b2.
  replace (i + Z.of_nat len - 1) with (i + (Z.of_nat len - 1)) by lia.
  repeat split; try assumption; try apply Hwin.
  f_equal; lia.
Qed.

Lemma drift_rows_spec (tbins : list (float * float)) (arr : list float)
    (vs : list float) (i : Z) :
  0 <= i ->
  i + Z.of_nat (length vs) <= Z.of_nat (length tbins) ->
  exists rows,
    drift_rows tbins (map (fun b => n_tr_before arr b.1) tbins)
               (map (fun b => n_tr_before arr b.2) tbins) i vs
    = Ok rows /\
    length rows = length vs /\
    (forall k row, rows !! k = Some row ->
       period_spec tbins arr (i + Z.of_nat k) (drop k vs) row).
Proof.
  revert i. induction vs as [| v1 rest IH]; intros i Hi Hn.
  - exists []. repeat split. intros k row Hk. now rewrite lookup_nil in Hk.
  - destruct (drift_period_spec tbins arr i v1 rest Hi Hn) as (row & Hrow & Hspec).
    destruct (IH (i + 1)) as (rows & Hrows & Hlen & Hall);
      [lia | simpl length in Hn; lia |].
    cbn [drift_rows]. rewrite Hrow. cbn [mbind result_bind].
    rewrite Hrows. cbn [mbind result_bind].
    exists (row :: rows). split; [reflexivity |]. split; [simpl; lia |].
    intros [| k] r Hk; simpl in Hk.
    + injection Hk as <-. rewrite Z.add_0_r. exact Hspec.
    + apply Hall in Hk. simpl drop.
      replace (i + Z.of_nat (S k)) with (i + 1 + Z.of_nat k) by lia.
      exact Hk.
Qed.

(** [argmax] finds the first maximum. *)
Lemma argmax_from_spec (xs pre : list Z) (best_i : nat) (best : Z) :
  pre !! best_i = Some best ->
  (forall k x, pre !! k = Some x -> x <= best) ->
  (forall k x, (k < best_i)%nat -> pre !! k = Some x -> x < best) ->
  first_argmax (pre ++ xs) (argmax_from xs (length pre) best_i best).
Proof.
  revert pre best_i best.
  induction xs as [| x rest IH]; intros pre best_i best Hb Hmax Hfirst.
  - rewrite app_nil_r. simpl. exists best. auto.
  - cbn [argmax_from].
    replace (pre ++ x :: rest) with ((pre ++ [x]) ++ rest)
      by now rewrite <- app_assoc.
    replace (S (length pre)) with (length (pre ++ [x]))
      by (rewrite length_app; simpl; lia).
    destruct (Z.ltb_spec best x) as [Hlt | Hge].
    + apply IH.
      * now rewrite lookup_app_r, Nat.sub_diag by lia.
      * intros k y Hk. apply lookup_app_Some in Hk as [Hk | [_ Hk]].
        -- apply Hmax in Hk. lia.
        -- apply list_lookup_singleton_Some in Hk as [_ <-]. lia.
      * intros k y Hlen Hk. rewrite lookup_app_l in Hk by exact Hlen.
        apply Hmax in Hk. lia.
    + apply IH.
      * rewrite lookup_app_l; [exact Hb |].
        now apply lookup_lt_Some in Hb.
      * intros k y Hk. apply lookup_app_Some in Hk as [Hk | [_ Hk]].
        -- now apply Hmax in Hk.
        -- apply list_lookup_singleton_Some in Hk as [_ <-]. lia.
      * intros k y Hlt Hk. apply lookup_lt_Some in Hb.
        rewrite lookup_app_l in Hk by lia. now apply (Hfirst k).
Qed.

Lemma argmax_spec (xs : list Z) :
  xs <> [] -> exists idx, argmax xs = Ok idx /\ first_argmax xs idx.
Proof.
  destruct xs as [| x rest]; [easy | intros _].
  eexists. split; [reflexivity |].
  apply (argmax_from_spec rest [x] 0 x).
  - reflexivity.
  - intros k y Hk. apply list_lookup_singleton_Some in Hk as [_ <-]. lia.
  - intros k y Hk. lia.
Qed.

Section DriftSearch.

Variable indices_in_window : list float -> float -> float -> list bool.
Variable list_to_quantity : list float -> list float.

(** The search returns: the table has one row per start bin, every row is
    as the specification describes, and the first row with most trials is
    selected. *)
Lemma drift_search_spec (v : list float) (tbins : list (float * float))
    (tr_starts : list float) :
  v <> [] ->
  (length v <= length tbins)%nat ->
  exists (prd_res : list prd_row) (idx : nat) (best : prd_row),
    drift_periods list_to_quantity v tbins tr_starts = Ok prd_res /\
    length prd_res = length v /\
    (forall i row, prd_res !! i = Some row ->
       period_spec tbins (list_to_quantity tr_starts)
                   (Z.of_nat i) (drop i v) row) /\
    first_argmax (map n_tr prd_res) idx /\
    prd_res !! idx = Some best /\
    drift_search list_to_quantity v tbins tr_starts = Ok best.
Proof.
  intros Hne Hlen.
  destruct (drift_rows_spec tbins (list_to_quantity tr_starts) v 0)
    as (rows & Hrows & Hlrows & Hall); [lia | lia |].
  destruct (argmax_spec (map n_tr rows)) as (idx & Hidx & Hfirst).
  { destruct rows; [| easy]. destruct v; [easy | discriminate]. }
  assert (Hbest : exists best, rows !! idx = Some best).
  { destruct Hfirst as (m & Hm & _).
    rewrite list_lookup_fmap in Hm.
    destruct (rows !! idx) as [best |]; [now exists best | easy]. }
  destruct Hbest as [best Hbest].
  exists rows, idx, best.
  assert (Hper : drift_periods list_to_quantity v tbins tr_starts = Ok rows)
    by exact Hrows.
  split; [exact Hper |]. split; [exact Hlrows |].
  split; [intros i row Hi; apply Hall in Hi; exact Hi |].
  split; [exact Hfirst |]. split; [exact Hbest |].
  unfold drift_search. rewrite Hper. cbn [mbind result_bind].
  rewrite Hidx. cbn [mbind result_bind]. rewrite Hbest. reflexivity.
Qed.


End DriftSearch.


(** A constant rate of 5 spikes/s over ten bins and a hundred trials: the
    first period spans the session and covers the trials 0 to 99. *)
Example drift_search_constant_rate :
  drift_search id (map (fun _ : Z => F.of_Z 5) (seqZ 0 10))
    (map (fun k => (F.of_Z (120 * k), F.of_Z (120 * (k + 1)))) (seqZ 0 10))
    (map (fun k => F.of_Z (12 * k)) (seqZ 0 100))
  = Ok {| prd_start_i := 0; prd_end_i := 9; n_prd := 10;
          t_start := F.of_Z 0; t_end := F.of_Z 1200; t_len := F.of_Z 1200;
          tr_start_i := 0; tr_end_i := 100; n_tr := 100 |}.
Proof. vm_compute. reflexivity. Qed.

(** On the session of four bins with rates 1, 5, 6 and 20 the period of
    bins 1 and 2 wins: it covers the six trials 3 to 8. *)
Example test_drift_session :
  test_drift window_mask id [] session_rates session_bins session_trials
             session_spikes
  = Ok (F.of_Z 120, F.of_Z 360,
        [false; true; false; false],
        [false; false; false; true; true; true; true; true; true;
         false; false; false],
        [false; true; true; false]).
Proof. vm_compute. reflexivity. Qed.

(** ** Order lemmas for doubles *)

Lemma SFcompare_key (x y : float) :
  match SFcompare x y with
  | Some c =>
      F.is_nan x = false /\ F.is_nan y = false /\ lex_cmp (key x) (key y) c
  | None => F.is_nan x = true \/ F.is_nan y = true
  end.
Proof.
  destruct x as [sx | sx | | sx mx ex], y as [sy | sy | | sy my ey];
    try destruct sx; try destruct sy; cbn -[Z.compare Z.lt];
    unfold lex_lt; cbn [fst snd]; auto; try (repeat split; auto; lia).
  - change (Pos.compare_cont Eq mx my) with (Pos.compare mx my).
    destruct (Z.compare_spec ex ey), (Pos.compare_spec mx my); subst;
      cbn [CompOpp lex_cmp]; unfold lex_lt; cbn [fst snd];
      repeat split; auto; try lia.
  - change (Pos.compare_cont Eq mx my) with (Pos.compare mx my).
    destruct (Z.compare_spec ex ey), (Pos.compare_spec mx my); subst;
      cbn [CompOpp lex_cmp]; unfold lex_lt; cbn [fst snd];
      repeat split; auto; try lia.
Qed.

Lemma lex_lt_irrefl (a : Z * (Z * Z)) : ~ lex_lt a a.
Proof. unfold lex_lt. lia. Qed.

Lemma lex_lt_asym (a b : Z * (Z * Z)) : lex_lt a b -> ~ lex_lt b a.
Proof. unfold lex_lt. lia. Qed.

Lemma lex_lt_trans (a b c : Z * (Z * Z)) :
  lex_lt a b -> lex_lt b c -> lex_lt a c.
Proof. unfold lex_lt. lia. Qed.

Lemma ltb_iff (x y : float) :
  F.ltb x y = true <->
  F.is_nan x = false /\ F.is_nan y = false /\ lex_lt (key x) (key y).
Proof.
  pose proof (SFcompare_key x y) as Hcmp. unfold F.ltb, SFltb.
  destruct (SFcompare x y) as [[| |] |]; cbn [lex_cmp] in Hcmp.
  - split; [discriminate |]. intros (_ & _ & H).
    destruct Hcmp as (_ & _ & Hk). rewrite Hk in H.
    now apply lex_lt_irrefl in H.
  - split; [intros _; exact Hcmp | reflexivity].
  - split; [discriminate |]. intros (_ & _ & H).
    destruct Hcmp as (_ & _ & Hk). now apply lex_lt_asym in H.
  - split; [discriminate |]. intros (Hx & Hy & _).
    destruct Hcmp; congruence.
Qed.

Lemma leb_iff (x y : float) :
  F.leb x y = true <->
  F.is_nan x = false /\ F.is_nan y = false /\
  (lex_lt (key x) (key y) \/ key x = key y).
Proof.
  pose proof (SFcompare_key x y) as Hcmp. unfold F.leb, SFleb.
  destruct (SFcompare x y) as [[| |] |]; cbn [lex_cmp] in Hcmp.
  - split; [intros _ | reflexivity].
    destruct Hcmp as (Hx & Hy & Hk). auto.
  - split; [intros _ | reflexivity].
    destruct Hcmp as (Hx & Hy & Hk). auto.
  - split; [discriminate |]. intros (_ & _ & [H | H]);
      destruct Hcmp as (_ & _ & Hk).
    + now apply lex_lt_asym in H.
    + rewrite H in Hk. now apply lex_lt_irrefl in Hk.
  - split; [discriminate |]. intros (Hx & Hy & _).
    destruct Hcmp; congruence.
Qed.

Lemma ltb_irrefl (x : float) : F.ltb x x = false.
Proof.
  destruct (F.ltb x x) eqn:H; [| reflexivity].
  apply ltb_iff in H as (_ & _ & H). now apply lex_lt_irrefl in H.
Qed.

Lemma ltb_leb_trans (x y z : float) :
  F.ltb x y = true -> F.leb y z = true -> F.ltb x z = true.
Proof.
  rewrite !ltb_iff, leb_iff.
  intros (Hx & _ & Hxy) (_ & Hz & [Hyz | Hyz]); repeat split; auto.
  - exact (lex_lt_trans _ _ _ Hxy Hyz).
  - now rewrite <- Hyz.
Qed.

Lemma leb_trans (x y z : float) :
  F.leb x y = true -> F.leb y z = true -> F.leb x z = true.
Proof.
  rewrite !leb_iff.
  intros (Hx & _ & Hxy) (_ & Hz & Hyz); repeat split; auto.
  destruct Hxy as [Hxy | Hxy], Hyz as [Hyz | Hyz].
  - left. exact (lex_lt_trans _ _ _ Hxy Hyz).
  - left. now rewrite <- Hyz.
  - left. now rewrite Hxy.
  - right. congruence.
Qed.

(** ** Doubling a rate *)

Lemma drift_ratio_val :
  drift_ratio = S754_finite false 4503599627370496 (-51).
Proof. reflexivity. Qed.

Lemma digits_shift52 (m : positive) :
  Z.pos (digits2_pos (4503599627370496 * m)) = Z.pos (digits2_pos m) + 52.
Proof. cbv [Pos.mul]. cbn [digits2_pos]. lia. Qed.

(** Multiplying a proper positive double by 2.0 is exact: the exponent
    goes up by one (or the product overflows), or, for a subnormal number,
    the mantissa doubles. *)
Lemma mul_ratio_finite (m : positive) (e : Z) :
  bounded F.prec F.emax m e = true ->
  F.mul drift_ratio (S754_finite false m e)
  = if Z.pos (digits2_pos m) =? 53
    then (if e + 1 <=? 971 then S754_finite false m (e + 1)
          else S754_infinity false)
    else S754_finite false (m~0) e.
Proof.
  unfold bounded, canonical_mantissa, fexp, emin, F.prec, F.emax.
  intros Hb. apply andb_true_iff in Hb as [Hc He].
  apply Z.eqb_eq in Hc. apply Z.leb_le in He.
  rewrite drift_ratio_val. unfold F.mul, F.prec, F.emax, SFmul.
  cbn [xorb]. unfold binary_round_aux.
  destruct (Z.eqb_spec (Z.pos (digits2_pos m)) 53) as [Hd | Hd].
  - assert (Hn : shr_fexp 53 1024 (Z.pos (4503599627370496 * m)) (-51 + e)
                          loc_Exact
                 = ({| shr_m := Z.pos m; shr_r := false; shr_s := false |},
                    e + 1)).
    { unfold shr_fexp, fexp, emin, Zdigits2. rewrite digits_shift52.
      replace (Z.max (Z.pos (digits2_pos m) + 52 + (-51 + e) - 53)
                     (3 - 1024 - 53) - (-51 + e)) with 52 by lia.
      unfold shr. f_equal; try lia; reflexivity. }
    rewrite Hn. cbn [shr_m loc_of_shr_record round_nearest_even].
    unfold shr_fexp, fexp, emin, Zdigits2.
    replace (Z.max (Z.pos (digits2_pos m) + (e + 1) - 53) (3 - 1024 - 53)
             - (e + 1)) with 0 by lia.
    cbn. reflexivity.
  - assert (Hn : shr_fexp 53 1024 (Z.pos (4503599627370496 * m)) (-51 + e)
                          loc_Exact
                 = ({| shr_m := Z.pos m~0; shr_r := false; shr_s := false |},
                    e)).
    { unfold shr_fexp, fexp, emin, Zdigits2. rewrite digits_shift52.
      replace (Z.max (Z.pos (digits2_pos m) + 52 + (-51 + e) - 53)
                     (3 - 1024 - 53) - (-51 + e)) with 51 by lia.
      unfold shr. f_equal; try lia; reflexivity. }
    rewrite Hn. cbn [shr_m loc_of_shr_record round_nearest_even].
    unfold shr_fexp, fexp, emin, Zdigits2. cbn [digits2_pos].
    replace (Z.max (Z.pos (Pos.succ (digits2_pos m)) + e - 53) (3 - 1024 - 53)
             - e) with 0 by lia.
    cbn. replace (e <=? 1024 - 53) with true
      by (symmetry; apply Z.leb_le; lia).
    reflexivity.
Qed.

(** A rate never exceeds its own double. *)
Lemma double_not_below (x : float) :
  rate_ok x -> F.ltb (F.mul drift_ratio x) x = false.
Proof.
  intros [Hv Hpos].
  destruct x as [s | s | | s m e]; try destruct s; try easy.
  rewrite (mul_ratio_finite m e Hv).
  destruct (_ =? 53); [destruct (_ <=? 971) |]; try reflexivity.
  - destruct (F.ltb _ _) eqn:H; [| reflexivity].
    apply ltb_iff in H as (_ & _ & H). unfold lex_lt in H.
    cbn [key fst snd] in H. lia.
  - destruct (F.ltb _ _) eqn:H; [| reflexivity].
    apply ltb_iff in H as (_ & _ & H). unfold lex_lt in H.
    cbn [key fst snd] in H. lia.
Qed.

(** ** The selected trial range *)

Lemma py_min_same (x : float) : py_min x x = x.
Proof. unfold py_min. now rewrite ltb_irrefl. Qed.

Lemma py_max_same (x : float) : py_max x x = x.
Proof. unfold py_max, F.gtb. now rewrite ltb_irrefl. Qed.

(** A window never stops on its first bin. *)
Lemma stops_at_first (v1 : float) (rest : list float) :
  rate_ok v1 -> stops_at (v1 :: rest) 0 = false.
Proof.
  intros Hv. unfold stops_at, run_max, run_min.
  cbn [lookup list_lookup take fold_left].
  rewrite take_0. cbn [fold_left].
  rewrite py_min_same, py_max_same. unfold F.gtb.
  change (F.lit 20 10) with drift_ratio.
  now rewrite (double_not_below v1 Hv).
Qed.

Lemma window_length_bounds (v1 : float) (rest : list float) (len : nat) :
  rate_ok v1 -> window_length (v1 :: rest) len ->
  (1 <= len <= length (v1 :: rest))%nat.
Proof.
  intros Hv [Hbefore Hat]. split.
  - destruct len; [| lia]. destruct Hat as [Hat | Hat]; [discriminate |].
    now rewrite (stops_at_first v1 rest Hv) in Hat.
  - destruct Hat as [-> | Hat]; [lia |].
    unfold stops_at in Hat.
    destruct ((v1 :: rest) !! len) eqn:Hl; [| discriminate].
    apply lookup_lt_Some in Hl. lia.
Qed.

Lemma py_index_nonneg {A} (l : list A) (k : Z) (a : A) :
  0 <= k -> py_index l k = Ok a -> l !! Z.to_nat k = Some a.
Proof.
  intros Hk. unfold py_index.
  destruct (Z.leb_spec 0 k); [| lia]. cbn [andb].
  destruct (k <? Z.of_nat (length l)).
  - destruct (l !! Z.to_nat k); simpl; [now intros [= ->] | easy].
  - destruct (Z.ltb_spec k 0); [lia |]. rewrite andb_false_r. easy.
Qed.

(** Along ordered bins the start of a bin is no later than the end of any
    bin that follows it. *)
Lemma bins_chain (tbins : list (float * float)) (i d : nat)
    (b1 b2 : float * float) :
  bins_ordered tbins ->
  tbins !! i = Some b1 -> tbins !! (i + d)%nat = Some b2 ->
  F.leb b1.1 b2.2 = true.
Proof.
  intros [Hin Hnext]. revert b2.
  induction d as [| d IH]; intros b2 H1 H2.
  - rewrite Nat.add_0_r in H2. rewrite H1 in H2. injection H2 as <-.
    now apply (Hin i).
  - destruct (lookup_lt_is_Some_2 tbins (i + d)) as [bm Hm].
    { apply lookup_lt_Some in H2. lia. }
    replace (i + S d)%nat with (S (i + d)) in H2 by lia.
    apply (leb_trans _ bm.2); [now apply IH |].
    apply (leb_trans _ b2.1); [now apply (Hnext (i + d)%nat) |].
    now apply (Hin (S (i + d))).
Qed.

(** Counting the trial starts before a boundary is monotone in the
    boundary. *)
Lemma n_tr_before_mono (arr : list float) (a b : float) :
  F.leb a b = true -> n_tr_before arr a <= n_tr_before arr b.
Proof.
  intros Hab. unfold n_tr_before, count_true.
  apply inj_le. induction arr as [| x arr IH]; [simpl; lia |].
  cbn [map]. rewrite !filter_cons.
  destruct (F.ltb x a) eqn:Hxa.
  - rewrite (ltb_leb_trans x a b Hxa Hab).
    rewrite !decide_True by reflexivity. simpl. lia.
  - rewrite decide_False by discriminate.
    destruct (decide (F.ltb x b = true)); simpl; lia.
Qed.

Section DriftRange.

Variable indices_in_window : list float -> float -> float -> list bool.
Variable list_to_quantity : list float -> list float.


End DriftRange.

Lemma session_rates_ok : Forall rate_ok session_rates.
Proof. repeat constructor. Qed.

Lemma session_bins_ordered : bins_ordered session_bins.
Proof.
  split.
  - intros [| [| [| [| k]]]] b H; simpl in H; try discriminate;
      injection H as <-; reflexivity.
  - intros [| [| [| [| k]]]] b b' H H'; simpl in H, H'; try discriminate;
      injection H as <-; injection H' as <-; reflexivity.
Qed.


(** ** Signs of computed doubles *)













(** ** The signal to noise ratio *)




(** ** The truncation flag *)

Lemma count_true_cons (b : bool) (bs : list bool) :
  count_true (b :: bs) = (if b then 1 else 0) + count_true bs.
Proof.
  unfold count_true. rewrite filter_cons.
  destruct b; [rewrite decide_True by reflexivity
              | rewrite decide_False by discriminate]; simpl length; lia.
Qed.

Lemma count_true_nonneg (bs : list bool) : 0 <= count_true bs.
Proof. unfold count_true. lia. Qed.

Lemma count_true_app (bs cs : list bool) :
  count_true (bs ++ cs) = count_true bs + count_true cs.
Proof.
  induction bs as [| b bs IH]; [unfold count_true at 2; simpl; lia |].
  simpl app. rewrite !count_true_cons, IH. lia.
Qed.

(** A spike that reaches a voltage holds at least one sample at it. *)
Lemma reaching_one_sample (v : float) (row : list float) :
  (if existsb (fun x => F.eqb x v) row then 1 else 0) <= count_eq v row.
Proof.
  unfold count_eq. induction row as [| x row IH]; [reflexivity |].
  cbn [existsb map]. rewrite count_true_cons.
  pose proof (count_true_nonneg (map (fun x => F.eqb x v) row)).
  destruct (F.eqb x v); cbn [orb]; [lia |].
  destruct (existsb _ row); lia.
Qed.

(** No more spikes reach a voltage than there are samples at it. *)
Lemma spikes_reaching_le (v : float) (rows : list (list float)) :
  spikes_reaching v rows <= count_eq v (concat rows).
Proof.
  unfold spikes_reaching, count_eq.
  induction rows as [| row rows IH]; [reflexivity |].
  cbn [map concat]. rewrite count_true_cons, map_app, count_true_app.
  pose proof (reaching_one_sample v row) as H. unfold count_eq in H. lia.
Qed.

Section TruncationFlag.

Variable calc_wf_stats :
  float -> float -> list float -> list float -> result (float * float * Z).

(** C6, as the code behaves: the flag that [calc_waveform_stats] returns
    is true exactly when more than one sample of the whole waveform set
    equals the lowest voltage, or more than one equals the highest.  More
    than one spike reaching an extreme voltage is therefore enough to set
    it. *)
Theorem calc_waveform_stats_truncated (waveforms : DataFrame)
    (stats : list (float * float * Z)) (flag : bool) (minV maxV : float) :
  calc_waveform_stats calc_wf_stats waveforms = Ok (stats, flag, minV, maxV) ->
  np_min (df_values waveforms) = Some minV /\
  np_max (df_values waveforms) = Some maxV /\
  (flag = true <->
     1 < count_eq minV (df_values waveforms) \/
     1 < count_eq maxV (df_values waveforms)) /\
  (truncated_spec (df_rows waveforms) minV maxV = true -> flag = true).
Proof.
  unfold calc_waveform_stats. intros Hrun.
  destruct (np_min (df_values waveforms)) as [mn |]; [| discriminate].
  destruct (np_max (df_values waveforms)) as [mx |]; [| discriminate].
  cbn [of_option mbind result_bind] in Hrun.
  destruct (mapM _ _) as [res | e]; [| discriminate].
  cbn [mbind result_bind] in Hrun. injection Hrun as <- <- <- <-.
  split; [reflexivity |]. split; [reflexivity |].
  unfold is_truncated, truncated_spec.
  rewrite !orb_true_iff, !Z.ltb_lt. split; [reflexivity |].
  pose proof (spikes_reaching_le mn (df_rows waveforms)).
  pose proof (spikes_reaching_le mx (df_rows waveforms)).
  unfold df_values. lia.
Qed.

End TruncationFlag.

Lemma calc_waveform_stats_truncated_witness :
  exists stats flag minV maxV,
    calc_waveform_stats wf_stats_undefined wf_identical
    = Ok (stats, flag, minV, maxV) /\
    flag = true.
Proof.
  eexists _, _, _, _. split; [vm_compute; reflexivity |].
  refine (proj2 (proj2 (proj2
    (calc_waveform_stats_truncated wf_stats_undefined wf_identical
       _ _ _ _ _))) _);
    vm_compute; reflexivity.
Defined.

(** C6, as stated, fails: in this set a single spike reaches the lowest
    voltage, and a single one the highest, yet two samples sit at the
    lowest voltage and the flag is set. *)
Lemma truncated_by_one_spike :
  np_min (df_values wf_clipped_once) = Some (F.of_Z (-5)) /\
  np_max (df_values wf_clipped_once) = Some (F.of_Z 11) /\
  spikes_reaching (F.of_Z (-5)) (df_rows wf_clipped_once) = 1 /\
  spikes_reaching (F.of_Z 11) (df_rows wf_clipped_once) = 1 /\
  truncated_spec (df_rows wf_clipped_once) (F.of_Z (-5)) (F.of_Z 11) = false /\
  is_truncated (df_values wf_clipped_once) (F.of_Z (-5)) (F.of_Z 11) = true /\
  (exists stats,
     calc_waveform_stats wf_stats_undefined wf_clipped_once
     = Ok (stats, true, F.of_Z (-5), F.of_Z 11)).
Proof.
  vm_compute. repeat split. eexists. reflexivity.
Qed.

(** ** Quality control of an empty unit *)





Section QualityControlRuns.

Variable calc_wf_stats :
  float -> float -> list float -> list float -> result (float * float * Z).
Variable indices_in_window : list float -> float -> float -> list bool.
Variable list_to_quantity : list float -> list float.
Variable quantity_linspace : float -> float -> Z -> list float.
Variable calc_baseline_rate : Unit -> result float.
Variable test_task_relatedness : Unit -> result bool.



End QualityControlRuns.



(** * Further properties *)

(** ** What the rejection test reads *)







(** ** The trials a drift search keeps *)

Lemma count_true_le_length (bs : list bool) :
  count_true bs <= Z.of_nat (length bs).
Proof.
  induction bs as [| b bs IH]; [reflexivity |].
  rewrite count_true_cons. simpl length. destruct b; lia.
Qed.


Lemma trial_mask_length (n : nat) (first_tr last_tr : Z) :
  length (trial_mask n first_tr last_tr) = n.
Proof. unfold trial_mask. rewrite length_map, length_seqZ. lia. Qed.

Lemma trial_mask_lookup (n : nat) (first_tr last_tr : Z) (k : nat) :
  trial_mask n first_tr last_tr !! k = Some true <->
  (k < n)%nat /\ first_tr <= Z.of_nat k < last_tr.
Proof.
  unfold trial_mask. rewrite list_lookup_fmap.
  destruct (decide (k < n)%nat) as [Hk | Hk].
  - rewrite lookup_seqZ_lt by lia. cbn [fmap option_fmap option_map].
    rewrite Z.add_0_l. split.
    + intros [= H]. apply andb_true_iff in H as [H1 H2].
      apply Z.leb_le in H1. apply Z.ltb_lt in H2. lia.
    + intros [_ [H1 H2]]. f_equal. apply andb_true_iff.
      split; [now apply Z.leb_le | now apply Z.ltb_lt].
  - rewrite lookup_seqZ_ge by lia. split; [discriminate | lia].
Qed.


Section DriftTrials.

Variable indices_in_window : list float -> float -> float -> list bool.
Variable list_to_quantity : list float -> list float.

(** The conversion to a quantity array keeps one entry per trial. *)
Hypothesis list_to_quantity_length :
  forall l, length (list_to_quantity l) = length l.


End DriftTrials.


(** ** More on the order of doubles *)

Lemma leb_not_nan (x y : float) :
  F.leb x y = true -> F.is_nan x = false /\ F.is_nan y = false.
Proof. rewrite leb_iff. tauto. Qed.

Lemma rate_ok_not_nan (x : float) : rate_ok x -> F.is_nan x = false.
Proof. intros [_ H]. now apply leb_not_nan in H. Qed.

Lemma lex_total (a b : Z * (Z * Z)) : lex_lt a b \/ a = b \/ lex_lt b a.
Proof.
  destruct a as [a1 [a2 a3]], b as [b1 [b2 b3]]. unfold lex_lt. cbn [fst snd].
  destruct (Z.lt_total a1 b1) as [? | [-> | ?]]; [lia | | lia].
  destruct (Z.lt_total a2 b2) as [? | [-> | ?]]; [lia | | lia].
  destruct (Z.lt_total a3 b3) as [? | [-> | ?]]; [lia | | lia].
  right. left. reflexivity.
Qed.

(** Between numbers, [not (y < x)] is [x <= y]. *)
Lemma not_ltb_leb (x y : float) :
  F.is_nan x = false -> F.is_nan y = false ->
  F.ltb y x = false -> F.leb x y = true.
Proof.
  intros Hx Hy Hlt. apply leb_iff. repeat split; auto.
  destruct (lex_total (key x) (key y)) as [H | [H | H]]; auto.
  assert (Hyx : F.ltb y x = true) by (apply ltb_iff; auto). congruence.
Qed.

Lemma ltb_leb (x y : float) : F.ltb x y = true -> F.leb x y = true.
Proof. rewrite ltb_iff, leb_iff. tauto. Qed.

Lemma leb_refl (x : float) : F.is_nan x = false -> F.leb x x = true.
Proof. intros H. apply leb_iff. auto. Qed.

Lemma leb_finite_pos (m1 : positive) (e1 : Z) (m2 : positive) (e2 : Z) :
  F.leb (S754_finite false m1 e1) (S754_finite false m2 e2) = true <->
  e1 < e2 \/ (e1 = e2 /\ Z.pos m1 <= Z.pos m2).
Proof.
  unfold F.leb, SFleb, SFcompare.
  change (Pos.compare_cont Eq m1 m2) with (Pos.compare m1 m2).
  destruct (Z.compare_spec e1 e2) as [He | He | He],
    (Pos.compare_spec m1 m2) as [Hm | Hm | Hm];
    split; intros Hle; try reflexivity; try discriminate; lia.
Qed.

Lemma digits2_pos_mono (p q : positive) :
  (p <= q)%positive -> (digits2_pos p <= digits2_pos q)%positive.
Proof.
  revert q. induction p as [p IH | p IH |]; intros [q | q |] Hpq;
    cbn [digits2_pos]; try lia;
    (specialize (IH q ltac:(lia)); lia).
Qed.

(** Doubling keeps the order of rates. *)
Lemma double_mono (x y : float) :
  rate_ok x -> rate_ok y -> F.leb x y = true ->
  F.leb (F.mul drift_ratio x) (F.mul drift_ratio y) = true.
Proof.
  intros [Hvx Hpx] [Hvy Hpy] Hxy.
  destruct x as [sx | sx | | sx mx ex]; try destruct sx; try easy;
    destruct y as [sy | sy | | sy my ey]; try destruct sy; try easy;
    try rewrite (mul_ratio_finite mx ex Hvx);
    try rewrite (mul_ratio_finite my ey Hvy);
    repeat match goal with
           | |- context [if ?b then _ else _] => destruct b eqn:?
           end;
    try reflexivity.
  all: apply leb_finite_pos in Hxy.
  all: unfold F.valid, valid_binary, bounded, canonical_mantissa, fexp, emin,
         F.prec, F.emax in Hvx, Hvy.
  all: apply andb_true_iff in Hvx as [Hcx Hex];
       apply andb_true_iff in Hvy as [Hcy Hey].
  all: apply Z.eqb_eq in Hcx; apply Z.eqb_eq in Hcy;
       apply Z.leb_le in Hex; apply Z.leb_le in Hey.
  all: pose proof (digits2_pos_mono mx my) as Hmono.
  all: repeat match goal with
              | H : (_ =? _) = true |- _ => apply Z.eqb_eq in H
              | H : (_ =? _) = false |- _ => apply Z.eqb_neq in H
              | H : (_ <=? _) = true |- _ => apply Z.leb_le in H
              | H : (_ <=? _) = false |- _ => apply Z.leb_gt in H
              end.
  all: try (apply leb_finite_pos; lia).
  all: try (exfalso; lia).
Qed.

Lemma double_not_nan (x : float) :
  rate_ok x -> F.is_nan (F.mul drift_ratio x) = false.
Proof.
  intros [Hv Hpos].
  destruct x as [s | s | | s m e]; try destruct s; try easy.
  rewrite (mul_ratio_finite m e Hv).
  destruct (_ =? 53); [destruct (_ <=? 971) |]; reflexivity.
Qed.

(** The running minimum of rates is a rate, below the rate it started
    from and below every rate taken in. *)
Lemma fold_py_min_spec (l : list float) (a : float) :
  rate_ok a -> Forall rate_ok l ->
  rate_ok (fold_left py_min l a) /\
  F.leb (fold_left py_min l a) a = true /\
  (forall x, x ∈ l -> F.leb (fold_left py_min l a) x = true).
Proof.
  revert a. induction l as [| b l IH]; intros a Ha Hl.
  - cbn [fold_left]. split; [exact Ha |]. split.
    + apply leb_refl. now apply rate_ok_not_nan.
    + intros x Hx. now apply elem_of_nil in Hx.
  - inversion Hl as [| ? ? Hb Hl']; subst. cbn [fold_left].
    assert (Hstep : rate_ok (py_min a b) /\
                    F.leb (py_min a b) a = true /\
                    F.leb (py_min a b) b = true).
    { unfold py_min. destruct (F.ltb b a) eqn:Hlt.
      - split; [exact Hb |]. split; [now apply ltb_leb |].
        apply leb_refl. now apply rate_ok_not_nan.
      - split; [exact Ha |]. split.
        + apply leb_refl. now apply rate_ok_not_nan.
        + apply not_ltb_leb; auto using rate_ok_not_nan. }
    destruct Hstep as (Hok & Hle_a & Hle_b).
    destruct (IH (py_min a b) Hok Hl') as (Hr & Hm & Hall).
    split; [exact Hr |]. split.
    + exact (leb_trans _ _ _ Hm Hle_a).
    + intros x Hx. apply elem_of_cons in Hx as [-> | Hx]; [| now apply Hall].
      exact (leb_trans _ _ _ Hm Hle_b).
Qed.

Lemma fold_py_max_spec (l : list float) (a : float) :
  rate_ok a -> Forall rate_ok l ->
  rate_ok (fold_left py_max l a) /\
  F.leb a (fold_left py_max l a) = true /\
  (forall x, x ∈ l -> F.leb x (fold_left py_max l a) = true).
Proof.
  revert a. induction l as [| b l IH]; intros a Ha Hl.
  - cbn [fold_left]. split; [exact Ha |]. split.
    + apply leb_refl. now apply rate_ok_not_nan.
    + intros x Hx. now apply elem_of_nil in Hx.
  - inversion Hl as [| ? ? Hb Hl']; subst. cbn [fold_left].
    assert (Hstep : rate_ok (py_max a b) /\
                    F.leb a (py_max a b) = true /\
                    F.leb b (py_max a b) = true).
    { unfold py_max, F.gtb. destruct (F.ltb a b) eqn:Hlt.
      - split; [exact Hb |]. split; [now apply ltb_leb |].
        apply leb_refl. now apply rate_ok_not_nan.
      - split; [exact Ha |]. split.
        + apply leb_refl. now apply rate_ok_not_nan.
        + apply not_ltb_leb; auto using rate_ok_not_nan. }
    destruct Hstep as (Hok & Hle_a & Hle_b).
    destruct (IH (py_max a b) Hok Hl') as (Hr & Hm & Hall).
    split; [exact Hr |]. split.
    + exact (leb_trans _ _ _ Hle_a Hm).
    + intros x Hx. apply elem_of_cons in Hx as [-> | Hx]; [| now apply Hall].
      exact (leb_trans _ _ _ Hle_b Hm).
Qed.

(** ** Rates inside a period *)

(** Any two rates of a window are within a factor of two of each other. *)
Lemma window_pairwise (v1 : float) (rest : list float) (len a b : nat)
    (x y : float) :
  Forall rate_ok (v1 :: rest) ->
  window_length (v1 :: rest) len ->
  (a < len)%nat -> (b < len)%nat ->
  (v1 :: rest) !! a = Some x -> (v1 :: rest) !! b = Some y ->
  F.leb x (F.mul (F.lit 20 10) y) = true.
Proof.
  intros Hrates [Hbefore _] Ha Hb Hx Hy.
  change (F.lit 20 10) with drift_ratio.
  inversion Hrates as [| ? ? Hv1 Hrest]; subst.
  pose proof (proj1 (Forall_lookup _ _) Hrates a x Hx) as Hokx.
  pose proof (proj1 (Forall_lookup _ _) Hrates b y Hy) as Hoky.
  destruct (decide (a <= b)%nat) as [Hab | Hab].
  - pose proof (Hbefore b Hb) as Hstop. unfold stops_at in Hstop.
    rewrite Hy in Hstop. apply orb_false_iff in Hstop as [Hmax _].
    unfold F.gtb, run_max in Hmax. change (F.lit 20 10) with drift_ratio in Hmax.
    destruct (fold_py_max_spec (take (S b) (v1 :: rest)) v1 Hv1
                (Forall_take _ _ _ Hrates)) as (Hr & _ & Hall).
    apply (leb_trans _ (fold_left py_max (take (S b) (v1 :: rest)) v1)).
    + apply Hall, list_elem_of_lookup. exists a.
      rewrite lookup_take_lt by lia. exact Hx.
    + apply not_ltb_leb; auto using rate_ok_not_nan, double_not_nan.
  - pose proof (Hbefore a Ha) as Hstop. unfold stops_at in Hstop.
    rewrite Hx in Hstop. apply orb_false_iff in Hstop as [_ Hmin].
    unfold F.gtb, run_min in Hmin. change (F.lit 20 10) with drift_ratio in Hmin.
    destruct (fold_py_min_spec (take (S a) (v1 :: rest)) v1 Hv1
                (Forall_take _ _ _ Hrates)) as (Hr & _ & Hall).
    apply (leb_trans _ (F.mul drift_ratio
                          (fold_left py_min (take (S a) (v1 :: rest)) v1))).
    + apply not_ltb_leb; auto using rate_ok_not_nan, double_not_nan.
    + apply double_mono; auto.
      apply Hall, list_elem_of_lookup. exists b.
      rewrite lookup_take_lt by lia. exact Hy.
Qed.

Section DriftWindow.

Variable list_to_quantity : list float -> list float.

(** X4: on rates that are not negative, the period the search selects is
    a run of at least one bin inside the session, and any two rates inside
    it are within the drift ratio of each other: none is above 2.0 times
    another. *)
Theorem drift_search_ratio_bound (v : list float)
    (tbins : list (float * float)) (tr_starts : list float) :
  v <> [] ->
  (length v <= length tbins)%nat ->
  Forall rate_ok v ->
  exists best : prd_row,
    drift_search list_to_quantity v tbins tr_starts = Ok best /\
    0 <= prd_start_i best <= prd_end_i best /\
    prd_end_i best < Z.of_nat (length v) /\
    n_prd best = prd_end_i best - prd_start_i best + 1 /\
    (forall (a b : nat) (x y : float),
       prd_start_i best <= Z.of_nat a <= prd_end_i best ->
       prd_start_i best <= Z.of_nat b <= prd_end_i best ->
       v !! a = Some x -> v !! b = Some y ->
       F.leb x (F.mul (F.lit 20 10) y) = true).
Proof.
  intros Hne Hlen Hrates.
  destruct (drift_search_spec list_to_quantity v tbins tr_starts Hne Hlen)
    as (rows & idx & best & Hper & Hlrows & Hall & Hfirst & Hbest & Hrun).
  exists best. split; [exact Hrun |].
  pose proof (lookup_lt_Some _ _ _ Hbest) as Hidx. rewrite Hlrows in Hidx.
  destruct (Hall idx best Hbest) as (len & b1 & b2 & Hwin & Hb1 & Hb2 & ->).
  cbn [prd_start_i prd_end_i n_prd].
  destruct (lookup_lt_is_Some_2 v idx Hidx) as [v1 Hv1].
  pose proof (proj1 (Forall_lookup _ _) Hrates idx v1 Hv1) as Hok.
  rewrite (drop_S _ _ _ Hv1) in Hwin.
  destruct (window_length_bounds _ _ _ Hok Hwin) as [Hlo Hhi].
  simpl length in Hhi. rewrite length_drop in Hhi.
  split; [lia |]. split; [lia |]. split; [lia |].
  intros a b x y Ha Hb Hx Hy.
  apply (window_pairwise v1 (drop (S idx) v) len (a - idx) (b - idx) x y);
    try lia; try exact Hwin.
  - rewrite <- (drop_S _ _ _ Hv1). now apply Forall_drop.
  - rewrite <- (drop_S _ _ _ Hv1), lookup_drop.
    now replace (idx + (a - idx))%nat with a by lia.
  - rewrite <- (drop_S _ _ _ Hv1), lookup_drop.
    now replace (idx + (b - idx))%nat with b by lia.
Qed.

End DriftWindow.

Lemma drift_search_ratio_bound_witness :
  exists best : prd_row,
    drift_search id session_rates session_bins session_trials = Ok best /\
    0 <= prd_start_i best <= prd_end_i best /\
    prd_end_i best < Z.of_nat (length session_rates) /\
    n_prd best = prd_end_i best - prd_start_i best + 1 /\
    (forall (a b : nat) (x y : float),
       prd_start_i best <= Z.of_nat a <= prd_end_i best ->
       prd_start_i best <= Z.of_nat b <= prd_end_i best ->
       session_rates !! a = Some x -> session_rates !! b = Some y ->
       F.leb x (F.mul (F.lit 20 10) y) = true).
Proof.
  apply (drift_search_ratio_bound id session_rates session_bins
           session_trials).
  - discriminate.
  - vm_compute. lia.
  - exact session_rates_ok.
Defined.

(** ** A session without drift *)

(** Along ordered bins, starts and ends both grow with the bin index. *)
Lemma bins_monotone (tbins : list (float * float)) (i j : nat)
    (bi bj : float * float) :
  bins_ordered tbins -> (i <= j)%nat ->
  tbins !! i = Some bi -> tbins !! j = Some bj ->
  F.leb bi.1 bj.1 = true /\ F.leb bi.2 bj.2 = true.
Proof.
  intros Hbins Hij Hi Hj.
  destruct (decide (i = j)) as [-> | Hne].
  - rewrite Hi in Hj. injection Hj as <-.
    destruct (leb_not_nan _ _ (proj1 Hbins j bi Hi)) as [H1 H2].
    split; now apply leb_refl.
  - destruct (lookup_lt_is_Some_2 tbins (S i)) as [bn Hn].
    { apply lookup_lt_Some in Hj. lia. }
    destruct (lookup_lt_is_Some_2 tbins (j - 1)) as [bp Hp].
    { apply lookup_lt_Some in Hj. lia. }
    split.
    + apply (leb_trans _ bp.2).
      * apply (bins_chain tbins i (j - 1 - i) bi bp Hbins Hi).
        now replace (i + (j - 1 - i))%nat with (j - 1)%nat by lia.
      * apply (proj2 Hbins (j - 1)%nat bp bj Hp).
        now replace (S (j - 1)) with j by lia.
    + apply (leb_trans _ bn.1).
      * exact (proj2 Hbins i bi bn Hi Hn).
      * apply (bins_chain tbins (S i) (j - S i) bn bj Hbins Hn).
        now replace (S i + (j - S i))%nat with j by lia.
Qed.

Lemma window_length_le (vs : list float) (len : nat) :
  window_length vs len -> (len <= length vs)%nat.
Proof.
  intros [_ [-> | Hat]]; [lia |]. unfold stops_at in Hat.
  destruct (vs !! len) eqn:Hl; [| discriminate].
  apply lookup_lt_Some in Hl. lia.
Qed.

Lemma py_index_last {A} (l : list A) (a : A) :
  last l = Some a -> py_index l (Z.of_nat (length l) - 1) = Ok a.
Proof.
  intros Hlast. rewrite last_lookup in Hlast.
  assert (Hlen : (0 < length l)%nat) by (apply lookup_lt_Some in Hlast; lia).
  unfold py_index.
  destruct (Z.leb_spec 0 (Z.of_nat (length l) - 1)); [| lia].
  destruct (Z.ltb_spec (Z.of_nat (length l) - 1) (Z.of_nat (length l)));
    [| lia].
  cbn [andb].
  replace (Z.to_nat (Z.of_nat (length l) - 1)) with (pred (length l)) by lia.
  now rewrite Hlast.
Qed.

Section StableSession.

Variable indices_in_window : list float -> float -> float -> list bool.
Variable list_to_quantity : list float -> list float.

(** X5: when, scanning from the first bin, the running maximum never
    exceeds 2.0 times the current rate and the current rate never exceeds
    2.0 times the running minimum, [test_drift] on ordered bins keeps the
    whole session: the period it returns runs from the start of the first
    bin to the end of the last one and spans all bins. *)
Theorem test_drift_stable_session (t v : list float)
    (tbins : list (float * float)) (tr_starts spk_times : list float)
    (b_first b_last : float * float) :
  length v = length tbins ->
  bins_ordered tbins ->
  head tbins = Some b_first ->
  last tbins = Some b_last ->
  (forall d, stops_at v d = false) ->
  let tr_starts_arr := list_to_quantity tr_starts in
  test_drift indices_in_window list_to_quantity t v tbins tr_starts spk_times
  = Ok (b_first.1, b_last.2,
        indices_in_window (map F.of_Z (seqZ 0 (Z.of_nat (length tbins))))
                          (F.of_Z 0) (F.of_Z (Z.of_nat (length v) - 1)),
        trial_mask (length tr_starts) (n_tr_before tr_starts_arr b_first.1)
                   (n_tr_before tr_starts_arr b_last.2),
        indices_in_window spk_times b_first.1 b_last.2).
Proof.
  intros Hlen Hbins Hfirst Hlast Hstable arr.
  subst arr.
  assert (Hne : v <> []).
  { intros ->. destruct tbins; [discriminate Hfirst | discriminate Hlen]. }
  destruct (drift_search_spec list_to_quantity v tbins tr_starts Hne
              ltac:(lia))
    as (rows & idx & best & Hper & Hlrows & Hall & Hargmax & Hbest & Hrun).
  rewrite head_lookup in Hfirst.
  pose proof Hlast as Hlast'. rewrite last_lookup in Hlast'.
  assert (Hn : (0 < length v)%nat) by (destruct v; [easy | simpl; lia]).
  (* the first row spans the session *)
  destruct (lookup_lt_is_Some_2 rows 0 ltac:(lia)) as [r0 Hr0].
  destruct (Hall 0%nat r0 Hr0) as (len0 & b1 & b2 & Hwin0 & Hb1 & Hb2 & Hrow0).
  rewrite drop_0 in Hwin0.
  assert (Hlen0 : len0 = length v).
  { destruct Hwin0 as [_ [? | Hat]]; [assumption |].
    now rewrite Hstable in Hat. }
  subst len0.
  apply py_index_nonneg in Hb1; [| lia].
  change (Z.to_nat (Z.of_nat 0)) with 0%nat in Hb1.
  rewrite Hfirst in Hb1. injection Hb1 as <-.
  rewrite Hlen, Z.add_0_l, (py_index_last tbins b_last Hlast) in Hb2.
  injection Hb2 as <-.
  (* no row covers more trials *)
  assert (Hmax : forall k row, rows !! k = Some row -> n_tr row <= n_tr r0).
  { intros k row Hk.
    pose proof (lookup_lt_Some _ _ _ Hk) as Hklt. rewrite Hlrows in Hklt.
    destruct (Hall k row Hk) as (len & c1 & c2 & Hwin & Hc1 & Hc2 & ->).
    rewrite Hrow0. cbn [n_tr].
    pose proof (window_length_le _ _ Hwin) as Hle. rewrite length_drop in Hle.
    apply py_index_nonneg in Hc1; [| lia]. rewrite Nat2Z.id in Hc1.
    destruct (bins_monotone tbins 0 k b_first c1 Hbins ltac:(lia) Hfirst Hc1)
      as [Hs1 _].
    pose proof (n_tr_before_mono (list_to_quantity tr_starts) _ _ Hs1) as Hstart.
    pose proof (n_tr_before_mono (list_to_quantity tr_starts) _ _
                  (proj1 (bins_monotone tbins 0 (pred (length tbins))
                            b_first b_last Hbins ltac:(lia) Hfirst Hlast')))
      as _.
    destruct len as [| len].
    - (* an empty window: its end is the bin before its start *)
      destruct k as [| k].
      + exfalso. rewrite drop_0 in Hwin.
        destruct Hwin as [_ [Hz | Hat]]; [lia |].
        now rewrite Hstable in Hat.
      + apply py_index_nonneg in Hc2; [| lia].
        replace (Z.to_nat (Z.of_nat (S k) + Z.of_nat 0 - 1)) with k in Hc2
          by lia.
        pose proof (n_tr_before_mono (list_to_quantity tr_starts) _ _
                      (proj2 Hbins k c2 c1 Hc2 Hc1)).
        pose proof (n_tr_before_mono (list_to_quantity tr_starts) _ _
                      (bins_chain tbins 0 (pred (length tbins)) b_first b_last
                         Hbins Hfirst Hlast')).
        lia.
    - apply py_index_nonneg in Hc2; [| lia].
      replace (Z.to_nat (Z.of_nat k + Z.of_nat (S len) - 1))
        with (k + len)%nat in Hc2 by lia.
      destruct (bins_monotone tbins (k + len) (pred (length tbins)) c2 b_last
                  Hbins ltac:(lia) Hc2 Hlast') as [_ He2].
      pose proof (n_tr_before_mono (list_to_quantity tr_starts) _ _ He2). lia. }
  (* so the first row is the one selected *)
  assert (Hidx : idx = 0%nat).
  { destruct Hargmax as (m & Hm & _ & Hlt).
    rewrite list_lookup_fmap, Hbest in Hm. injection Hm as <-.
    destruct idx as [| idx]; [reflexivity |].
    specialize (Hlt 0%nat (n_tr r0) ltac:(lia)).
    rewrite list_lookup_fmap, Hr0 in Hlt. specialize (Hlt eq_refl).
    specialize (Hmax (S idx) best Hbest). lia. }
  subst idx. rewrite Hr0 in Hbest. injection Hbest as <-.
  unfold test_drift. rewrite Hrun. cbn [mbind result_bind].
  rewrite Hrow0. cbn [t_start t_end prd_start_i prd_end_i tr_start_i tr_end_i].
  rewrite Z.add_0_l. reflexivity.
Qed.

End StableSession.

Lemma steady_rates_stable (d : nat) : stops_at steady_rates d = false.
Proof. do 4 (destruct d as [| d]; [reflexivity |]). reflexivity. Qed.

Lemma test_drift_stable_session_witness :
  test_drift window_mask id [] steady_rates session_bins session_trials
             session_spikes
  = Ok (F.of_Z 0, F.of_Z 480,
        window_mask (map F.of_Z (seqZ 0 4)) (F.of_Z 0) (F.of_Z 3),
        trial_mask 12 0 12,
        window_mask session_spikes (F.of_Z 0) (F.of_Z 480)).
Proof.
  exact (test_drift_stable_session window_mask id [] steady_rates session_bins
           session_trials session_spikes
           (F.of_Z 0, F.of_Z 120) (F.of_Z 360, F.of_Z 480)
           eq_refl session_bins_ordered eq_refl eq_refl steady_rates_stable).
Defined.

(** ** Trial bounds given by hand *)

Lemma trial_mask_all (n : nat) :
  trial_mask n 0 (Z.of_nat n) = replicate n true.
Proof.
  apply list_eq. intros k. unfold trial_mask. rewrite list_lookup_fmap.
  destruct (decide (k < n)%nat) as [Hk | Hk].
  - rewrite lookup_seqZ_lt, lookup_replicate_2 by lia.
    cbn [fmap option_fmap option_map]. f_equal. apply andb_true_iff.
    split; [apply Z.leb_le | apply Z.ltb_lt]; lia.
  - rewrite lookup_seqZ_ge by lia. symmetry.
    apply lookup_replicate_None. lia.
Qed.

Section ManualBounds.

Variable indices_in_window : list float -> float -> float -> list bool.

(** X6: [set_inc_trials] with the bounds 0 and the number of trials keeps
    every trial and spans the whole recording, from the earlier of first
    spike and first trial start to the later of last spike and last trial
    stop; this holds for a unit without trials too. *)
Theorem set_inc_trials_full_range
    (tr_starts tr_stops spk_times tbin_vmid : list float) :
  let tstart := (get_start_stop_times spk_times tr_starts tr_stops).1 in
  let tstop := (get_start_stop_times spk_times tr_starts tr_stops).2 in
  set_inc_trials indices_in_window 0 (Z.of_nat (length tr_starts))
                 tr_starts tr_stops spk_times tbin_vmid
  = Ok (tstart, tstop,
        map (fun t => F.geb t tstart && F.leb t tstop) tbin_vmid,
        replicate (length tr_starts) true,
        indices_in_window spk_times tstart tstop).
Proof.
  intros tstart tstop. unfold set_inc_trials. subst tstart tstop.
  destruct (get_start_stop_times spk_times tr_starts tr_stops) as [t1 t2].
  rewrite Z.eqb_refl. cbn [Z.eqb mbind result_bind fst snd].
  now rewrite trial_mask_all.
Qed.

(** X7: [set_inc_trials] returns exactly when [first_tr] is 0 or the index
    of a trial and [last_tr] is the index of a trial or the number of
    trials; any other bound raises [KeyError].  When it returns, the mask
    has one entry per trial and marks the trials from [first_tr] up to, not
    including, [last_tr]. *)
Theorem set_inc_trials_bounds (first_tr last_tr : Z)
    (tr_starts tr_stops spk_times tbin_vmid : list float) :
  let n := Z.of_nat (length tr_starts) in
  let in_range :=
    (first_tr = 0 \/ 0 < first_tr < n) /\ 0 <= last_tr <= n in
  (in_range ->
   exists t1_inc t2_inc prd_inc tr_inc spk_inc,
     set_inc_trials indices_in_window first_tr last_tr tr_starts tr_stops
                    spk_times tbin_vmid
     = Ok (t1_inc, t2_inc, prd_inc, tr_inc, spk_inc) /\
     length tr_inc = length tr_starts /\
     (forall k : nat, tr_inc !! k = Some true <->
                      (k < length tr_starts)%nat /\
                      first_tr <= Z.of_nat k < last_tr)) /\
  (~ in_range ->
   set_inc_trials indices_in_window first_tr last_tr tr_starts tr_stops
                  spk_times tbin_vmid
   = Raise KeyError).
Proof.
  intros n in_range. subst in_range. unfold set_inc_trials.
  destruct (get_start_stop_times spk_times tr_starts tr_stops) as [t1 t2].
  assert (Hlk : forall k, 0 <= k < n ->
                  exists x, tr_starts !! Z.to_nat k = Some x).
  { intros k Hk. apply lookup_lt_is_Some_2. lia. }
  assert (Hnone : forall k, n <= k -> tr_starts !! Z.to_nat k = None).
  { intros k Hk. apply lookup_ge_None_2. lia. }
  split.
  - intros [Hfirst Hlast].
    assert (H1 : exists a,
               (if first_tr =? 0 then Ok t1
                else if first_tr <? 0 then Raise KeyError
                else of_option KeyError (tr_starts !! Z.to_nat first_tr))
               = Ok a).
    { destruct (Z.eqb_spec first_tr 0); [eauto |].
      destruct (Z.ltb_spec first_tr 0); [lia |].
      destruct (Hlk first_tr ltac:(lia)) as [x ->]. simpl. eauto. }
    assert (H2 : exists b,
               (if last_tr =? n then Ok t2
                else if last_tr <? 0 then Raise KeyError
                else of_option KeyError (tr_starts !! Z.to_nat last_tr))
               = Ok b).
    { destruct (Z.eqb_spec last_tr n); [eauto |].
      destruct (Z.ltb_spec last_tr 0); [lia |].
      destruct (Hlk last_tr ltac:(lia)) as [x ->]. simpl. eauto. }
    destruct H1 as [a ->], H2 as [b H2]. fold n. rewrite H2.
    cbn [mbind result_bind].
    eexists _, _, _, _, _. split; [reflexivity |].
    split; [apply trial_mask_length | apply trial_mask_lookup].
  - intros Hout. fold n.
    destruct (Z.eqb_spec first_tr 0) as [-> | Hf0].
    + cbn [mbind result_bind].
      destruct (Z.eqb_spec last_tr n); [lia |].
      destruct (Z.ltb_spec last_tr 0); [reflexivity |].
      rewrite (Hnone last_tr ltac:(lia)). reflexivity.
    + destruct (Z.ltb_spec first_tr 0); [reflexivity |].
      destruct (decide (first_tr < n)) as [Hlt | Hge].
      * destruct (Hlk first_tr ltac:(lia)) as [x ->].
        cbn [of_option mbind result_bind].
        destruct (Z.eqb_spec last_tr n); [lia |].
        destruct (Z.ltb_spec last_tr 0); [reflexivity |].
        rewrite (Hnone last_tr ltac:(lia)). reflexivity.
      * rewrite (Hnone first_tr ltac:(lia)). reflexivity.
Qed.

End ManualBounds.

Lemma set_inc_trials_bounds_witness :
  (exists t1_inc t2_inc prd_inc tr_inc spk_inc,
     set_inc_trials window_mask 3 9 session_trials session_trials
                    session_spikes []
     = Ok (t1_inc, t2_inc, prd_inc, tr_inc, spk_inc) /\
     length tr_inc = length session_trials /\
     (forall k : nat, tr_inc !! k = Some true <->
                      (k < length session_trials)%nat /\
                      3 <= Z.of_nat k < 9)) /\
  set_inc_trials window_mask 12 12 session_trials session_trials
                 session_spikes []
  = Raise KeyError.
Proof.
  split.
  - apply (proj1 (set_inc_trials_bounds window_mask 3 9 session_trials
                    session_trials session_spikes [])).
    vm_compute. repeat split; try discriminate. right. split; reflexivity.
  - apply (proj2 (set_inc_trials_bounds window_mask 12 12 session_trials
                    session_trials session_spikes [])).
    vm_compute. intros [[H | [_ H]] _]; discriminate.
Defined.

(** ** Waveform sets without a usable extreme *)

Lemma fold_np_minimum_nan (xs : list float) :
  fold_left np_minimum xs F.nan = F.nan.
Proof. induction xs as [| x xs IH]; [reflexivity | exact IH]. Qed.

Lemma fold_np_maximum_nan (xs : list float) :
  fold_left np_maximum xs F.nan = F.nan.
Proof. induction xs as [| x xs IH]; [reflexivity | exact IH]. Qed.

Lemma fold_np_minimum_has_nan (xs : list float) (a : float) :
  F.nan ∈ xs -> fold_left np_minimum xs a = F.nan.
Proof.
  revert a. induction xs as [| x xs IH]; intros a Hin.
  - now apply elem_of_nil in Hin.
  - cbn [fold_left]. apply elem_of_cons in Hin as [<- | Hin]; [| now apply IH].
    replace (np_minimum a F.nan) with F.nan
      by (unfold np_minimum; now destruct a).
    apply fold_np_minimum_nan.
Qed.

Lemma fold_np_maximum_has_nan (xs : list float) (a : float) :
  F.nan ∈ xs -> fold_left np_maximum xs a = F.nan.
Proof.
  revert a. induction xs as [| x xs IH]; intros a Hin.
  - now apply elem_of_nil in Hin.
  - cbn [fold_left]. apply elem_of_cons in Hin as [<- | Hin]; [| now apply IH].
    replace (np_maximum a F.nan) with F.nan
      by (unfold np_maximum; now destruct a).
    apply fold_np_maximum_nan.
Qed.

Lemma np_min_has_nan (xs : list float) :
  F.nan ∈ xs -> np_min xs = Some F.nan.
Proof.
  destruct xs as [| x xs]; intros Hin; [now apply elem_of_nil in Hin |].
  cbn [np_min]. f_equal.
  apply elem_of_cons in Hin as [<- | Hin];
    [apply fold_np_minimum_nan | now apply fold_np_minimum_has_nan].
Qed.

Lemma np_max_has_nan (xs : list float) :
  F.nan ∈ xs -> np_max xs = Some F.nan.
Proof.
  destruct xs as [| x xs]; intros Hin; [now apply elem_of_nil in Hin |].
  cbn [np_max]. f_equal.
  apply elem_of_cons in Hin as [<- | Hin];
    [apply fold_np_maximum_nan | now apply fold_np_maximum_has_nan].
Qed.

Lemma count_eq_nan (xs : list float) : count_eq F.nan xs = 0.
Proof.
  unfold count_eq. induction xs as [| x xs IH]; [reflexivity |].
  cbn [map]. rewrite count_true_cons, IH.
  now replace (F.eqb x F.nan) with false by (now destruct x).
Qed.

Section DegenerateWaveforms.

Variable calc_wf_stats :
  float -> float -> list float -> list float -> result (float * float * Z).

(** X8: [calc_waveform_stats] raises [ValueError] on a waveform set
    without a sample.  A NaN sample anywhere makes both extreme voltages
    NaN, and since no sample equals NaN the truncation flag is then false,
    however many samples are clipped. *)
Theorem calc_waveform_stats_degenerate (waveforms : DataFrame) :
  (df_values waveforms = [] ->
   calc_waveform_stats calc_wf_stats waveforms = Raise ValueError) /\
  (F.nan ∈ df_values waveforms ->
   forall stats flag minV maxV,
     calc_waveform_stats calc_wf_stats waveforms
     = Ok (stats, flag, minV, maxV) ->
     flag = false /\ minV = F.nan /\ maxV = F.nan).
Proof.
  unfold calc_waveform_stats. split.
  - intros ->. reflexivity.
  - intros Hnan stats flag minV maxV.
    rewrite (np_min_has_nan _ Hnan), (np_max_has_nan _ Hnan).
    cbn [of_option mbind result_bind].
    destruct (mapM _ _) as [res | e]; [| discriminate].
    cbn [mbind result_bind]. intros [= <- <- <- <-].
    unfold is_truncated. now rewrite count_eq_nan.
Qed.

End DegenerateWaveforms.

Lemma calc_waveform_stats_degenerate_witness :
  calc_waveform_stats wf_stats_undefined {| df_columns := []; df_rows := [] |}
  = Raise ValueError /\
  (forall stats flag minV maxV,
     calc_waveform_stats wf_stats_undefined
       {| df_columns := map F.of_Z [0; 25];
          df_rows := [[F.of_Z 1; F.nan]; [F.of_Z 1; F.of_Z 1]] |}
     = Ok (stats, flag, minV, maxV) ->
     flag = false /\ minV = F.nan /\ maxV = F.nan).
Proof.
  split.
  - apply (proj1 (calc_waveform_stats_degenerate wf_stats_undefined
                    {| df_columns := []; df_rows := [] |})).
    reflexivity.
  - apply (proj2 (calc_waveform_stats_degenerate wf_stats_undefined _)).
    cbn. set_solver.
Defined.

(** ** Time bins *)

Lemma zip_tail_lookup {A} (l : list A) (k : nat) (a b : A) :
  zip l (tail l) !! k = Some (a, b) <->
  l !! k = Some a /\ l !! S k = Some b.
Proof.
  destruct l as [| x l]; [rewrite !lookup_nil; simpl; split;
                          [discriminate | intros [? _]; discriminate] |].
  cbn [tail]. revert x k. induction l as [| y l IH]; intros x k.
  - destruct k; simpl; split; try discriminate; intros [_ ?]; discriminate.
  - destruct k as [| k]; cbn [zip zip_with lookup list_lookup].
    + split; [intros [= -> ->]; auto | intros [[= ->] [= ->]]; reflexivity].
    + apply IH.
Qed.

Lemma length_zip_tail {A} (l : list A) :
  length (zip l (tail l)) = pred (length l).
Proof.
  rewrite length_zip_with. destruct l; cbn [tail length pred]; lia.
Qed.

Section TimeBins.

Variable calc_wf_stats :
  float -> float -> list float -> list float -> result (float * float * Z).
Variable indices_in_window : list float -> float -> float -> list bool.
Variable list_to_quantity : list float -> list float.
Variable quantity_linspace : float -> float -> Z -> list float.

(** [quantity_linspace start stop num] yields [num] limits. *)
Hypothesis quantity_linspace_length :
  forall start stop num,
    length (quantity_linspace start stop num) = Z.to_nat num.

(** The shape of the binning, shared by the two statements below. *)
Lemma time_bin_data_bins_aux (spk_times : list float) (waveforms : DataFrame)
    (tr_starts tr_stops : list float) :
  (forall tbins tbin_vmid wf_binned spk_times_binned,
     time_bin_data indices_in_window quantity_linspace spk_times waveforms
                   tr_starts tr_stops
     = Ok (tbins, tbin_vmid, wf_binned, spk_times_binned) ->
     (1 <= length tbins)%nat /\
     length tbin_vmid = length tbins /\
     length wf_binned = length tbins /\
     length spk_times_binned = length tbins /\
     (forall k b b', tbins !! k = Some b -> tbins !! S k = Some b' ->
                     b.2 = b'.1)) /\
  (spk_times = [] ->
   time_bin_data indices_in_window quantity_linspace spk_times waveforms
                 tr_starts tr_stops
   = Raise ValueError).
Proof.
  unfold time_bin_data. split.
  - intros tbins tbin_vmid wf_binned spk_times_binned.
    destruct (get_start_stop_times spk_times tr_starts tr_stops) as [t0 t1].
    destruct (F.floor _) as [n |]; [| discriminate].
    cbn [of_option mbind result_bind]. intros [= <- <- <- <-].
    rewrite !length_map, length_zip_tail, quantity_linspace_length.
    split; [lia |]. repeat split.
    intros k [b1 b2] [c1 c2] Hb Hc.
    apply zip_tail_lookup in Hb as [_ Hb]. apply zip_tail_lookup in Hc as [Hc _].
    rewrite Hb in Hc. now injection Hc.
  - intros ->. reflexivity.
Qed.

(** X9: when [time_bin_data] returns, there is at least one bin, the bins
    are contiguous (each one ends where the next begins), and the
    midpoints, binned waveforms and binned spike times have one entry per
    bin.  It raises [ValueError] on a unit without spike times, whatever
    its trials. *)
Theorem time_bin_data_bins (spk_times : list float) (waveforms : DataFrame)
    (tr_starts tr_stops : list float) :
  (forall tbins tbin_vmid wf_binned spk_times_binned,
     time_bin_data indices_in_window quantity_linspace spk_times waveforms
                   tr_starts tr_stops
     = Ok (tbins, tbin_vmid, wf_binned, spk_times_binned) ->
     (1 <= length tbins)%nat /\
     length tbin_vmid = length tbins /\
     length wf_binned = length tbins /\
     length spk_times_binned = length tbins /\
     (forall k b b', tbins !! k = Some b -> tbins !! S k = Some b' ->
                     b.2 = b'.1)) /\
  (spk_times = [] ->
   time_bin_data indices_in_window quantity_linspace spk_times waveforms
                 tr_starts tr_stops
   = Raise ValueError).
Proof. exact (time_bin_data_bins_aux spk_times waveforms tr_starts tr_stops). Qed.


End TimeBins.

Lemma linspace_length (start stop : float) (num : Z) :
  length (linspace start stop num) = Z.to_nat num.
Proof. unfold linspace. now rewrite length_map, length_seqZ. Qed.

Lemma time_bin_data_bins_witness :
  (forall tbins tbin_vmid wf_binned spk_times_binned,
     time_bin_data window_mask linspace [F.of_Z 1; F.of_Z 3] wf_clipped_once
                   [] []
     = Ok (tbins, tbin_vmid, wf_binned, spk_times_binned) ->
     (1 <= length tbins)%nat /\
     length tbin_vmid = length tbins /\
     length wf_binned = length tbins /\
     length spk_times_binned = length tbins /\
     (forall k b b', tbins !! k = Some b -> tbins !! S k = Some b' ->
                     b.2 = b'.1)) /\
  time_bin_data window_mask linspace [] wf_clipped_once session_trials
                session_trials
  = Raise ValueError.
Proof.
  split.
  - apply (proj1 (time_bin_data_bins window_mask linspace linspace_length
                    [F.of_Z 1; F.of_Z 3] wf_clipped_once [] [])).
  - apply (proj2 (time_bin_data_bins window_mask linspace linspace_length
                    [] wf_clipped_once session_trials session_trials)).
    reflexivity.
Defined.


(** ** Calls on a unit *)

Lemma keeps_ret {A} (a : A) : keeps_recorded (m_ret a).
Proof. intros u. reflexivity. Qed.

Lemma keeps_lift {A} (r : result A) : keeps_recorded (m_lift r).
Proof. intros u. reflexivity. Qed.

Lemma keeps_get : keeps_recorded m_get.
Proof. intros u. reflexivity. Qed.

Lemma keeps_modify (f : Unit -> Unit) :
  (forall u, recorded (f u) = recorded u) -> keeps_recorded (m_modify f).
Proof. intros Hf u. apply Hf. Qed.

Lemma keeps_bind {A B} (c : M A) (k : A -> M B) :
  keeps_recorded c -> (forall a, keeps_recorded (k a)) ->
  keeps_recorded (m_bind c k).
Proof.
  intros Hc Hk u. unfold m_bind. specialize (Hc u).
  destruct (c u) as [[a | e] u1]; cbn [snd] in *.
  - now rewrite Hk.
  - exact Hc.
Qed.

Lemma keeps_set_unit_param (key : string) (v : qval) :
  key <> "empty"%string -> keeps_recorded (set_unit_param key v).
Proof.
  intros Hne. apply keeps_modify. intros u. unfold recorded. cbn.
  now rewrite lookup_insert_ne.
Qed.

Lemma keeps_set_metric (key : string) (v : qval) :
  keeps_recorded (set_metric key v).
Proof. apply keeps_modify. reflexivity. Qed.

Ltac keeps_step :=
  first
    [ apply keeps_ret | apply keeps_get | apply keeps_lift
    | apply keeps_set_metric
    | apply keeps_set_unit_param; discriminate
    | apply keeps_modify; reflexivity
    | apply keeps_bind; [| intros ?]
    | match goal with
      | |- keeps_recorded (let '(_, _) := ?p in _) => destruct p
      | |- keeps_recorded (if ?b then _ else _) => destruct b
      | |- keeps_recorded (match ?o with Some _ => _ | None => _ end) =>
          destruct o
      end ].

Section QualityControlFrame.

Variable calc_wf_stats :
  float -> float -> list float -> list float -> result (float * float * Z).
Variable indices_in_window : list float -> float -> float -> list bool.
Variable list_to_quantity : list float -> list float.
Variable quantity_linspace : float -> float -> Z -> list float.
Variable calc_baseline_rate : Unit -> result float.
Variable test_task_relatedness : Unit -> result bool.

Lemma keeps_update_included_trials (tr_inc : list bool) :
  keeps_recorded (update_included_trials indices_in_window tr_inc).
Proof. unfold update_included_trials. repeat keeps_step. Qed.

(** X11: quality control never alters the recording.  Whether [test_qm]
    returns or raises, and whatever bounds and override it is given, the
    waveforms, the spike times, the trial start and stop times and the
    [empty] flag of the unit are afterwards what they were. *)
Theorem test_qm_keeps_recording (include : option bool)
    (first_tr last_tr : option Z) (u : Unit) :
  let u' := snd (test_qm calc_wf_stats indices_in_window list_to_quantity
                         quantity_linspace calc_baseline_rate
                         test_task_relatedness include first_tr last_tr u) in
  Waveforms u' = Waveforms u /\
  sp_time (SpikeParams u') = sp_time (SpikeParams u) /\
  TrialStart (TrialParams u') = TrialStart (TrialParams u) /\
  TrialStop (TrialParams u') = TrialStop (TrialParams u) /\
  UnitParams u' !! "empty"%string = UnitParams u !! "empty"%string.
Proof.
  intros u'. subst u'.
  assert (H : keeps_recorded
                (test_qm calc_wf_stats indices_in_window list_to_quantity
                         quantity_linspace calc_baseline_rate
                         test_task_relatedness include first_tr last_tr)).
  { unfold test_qm, is_empty, set_wf_stats, set_excluded.
    repeat (first [apply keeps_update_included_trials | keeps_step]). }
  specialize (H u). unfold recorded in H. now injection H.
Qed.

End QualityControlFrame.


(** ** What a quality-control pass leaves behind *)

Lemma test_rejection_run (qm : gmap string qval)
    (snr mfr isivr ntot ninc : float) :
  qm !! "SNR"%string = Some (QNum snr) ->
  qm !! "mFR"%string = Some (QNum mfr) ->
  qm !! "ISIvr"%string = Some (QNum isivr) ->
  qm !! "NTrialsTotal"%string = Some (QNum ntot) ->
  qm !! "NTrialsInc"%string = Some (QNum ninc) ->
  test_rejection qm
  = Ok (crit_SNR snr && crit_FR mfr && crit_ISI isivr &&
        crit_NTotal ntot && crit_IncRatio ninc ntot).
Proof.
  intros Hsnr Hfr Hisi Htot Hinc. unfold test_rejection.
  rewrite (qm_num_QNum _ _ _ Hsnr), (qm_num_QNum _ _ _ Hfr),
    (qm_num_QNum _ _ _ Hisi), (qm_num_QNum _ _ _ Htot),
    (qm_num_QNum _ _ _ Hinc).
  cbn [mbind result_bind]. f_equal. cbn [forallb id].
  unfold crit_SNR, crit_FR, crit_ISI, crit_NTotal, crit_IncRatio,
    min_SNR, min_FR, max_ISIvr, min_n_trs, min_inc_trs_ratio.
  now rewrite andb_true_r, !andb_assoc.
Qed.

Lemma count_true_negb (bs : list bool) :
  count_true (map negb bs) = Z.of_nat (length bs) - count_true bs.
Proof.
  induction bs as [| b bs IH]; [reflexivity |].
  cbn [map]. rewrite !count_true_cons, IH. simpl length.
  destruct b; cbn [negb]; lia.
Qed.

Lemma post_ret {A} (a : A) (u : Unit) (Q : A -> Unit -> Prop) :
  Q a u -> post (m_ret a) u Q.
Proof. intros H. exact H. Qed.

Lemma post_get (u : Unit) (Q : Unit -> Unit -> Prop) :
  Q u u -> post m_get u Q.
Proof. intros H. exact H. Qed.

Lemma post_modify (f : Unit -> Unit) (u : Unit) (Q : unit -> Unit -> Prop) :
  Q tt (f u) -> post (m_modify f) u Q.
Proof. intros H. exact H. Qed.

Lemma post_lift {A} (r : result A) (u : Unit) (Q : A -> Unit -> Prop) :
  (forall a, r = Ok a -> Q a u) -> post (m_lift r) u Q.
Proof. intros H. unfold post, m_lift. destruct r; auto. Qed.

Lemma post_bind {A B} (c : M A) (k : A -> M B) (u : Unit)
    (Q : B -> Unit -> Prop) :
  post c u (fun a u1 => post (k a) u1 Q) -> post (m_bind c k) u Q.
Proof.
  unfold post, m_bind. destruct (c u) as [[a | e] u1]; auto.
Qed.

Lemma post_run {A} (c : M A) (u u' : Unit) (a : A) (Q : A -> Unit -> Prop) :
  post c u Q -> c u = (Ok a, u') -> Q a u'.
Proof. unfold post. intros H Hrun. now rewrite Hrun in H. Qed.

Ltac post_step :=
  lazymatch goal with
  | |- post (m_bind _ _) _ _ => apply post_bind
  | |- post (m_ret _) _ _ => apply post_ret
  | |- post m_get _ _ => apply post_get
  | |- post (m_modify _) _ _ => apply post_modify
  | |- post (m_lift _) _ _ => apply post_lift; intros ? ?
  | |- post (let '(_, _) := ?p in _) _ _ =>
      lazymatch p with
      | (_, _) => cbv beta iota
      | _ => tryif is_var p then destruct p else destruct p eqn:?
      end
  | |- post (if ?b then _ else _) _ _ =>
      lazymatch b with
      | true => cbv beta iota
      | false => cbv beta iota
      | _ => destruct b
      end
  | |- post (match ?o with Some _ => _ | None => _ end) _ _ =>
      lazymatch o with
      | Some _ => cbv beta iota
      | None => cbv beta iota
      | _ => destruct o
      end
  | |- post ((fun _ => _) _) _ _ => cbv beta
  | |- (fun _ => _) _ _ => cbv beta
  | |- (fun _ => _) _ => cbv beta
  end.

Ltac lookup_metric :=
  repeat (rewrite lookup_insert_ne by discriminate); apply lookup_insert_eq.

Lemma run_alike_bind {A B} (c : M A) (k1 k2 : A -> M B) (u : Unit)
    (Q : B -> Unit -> Unit -> Prop) :
  post c u (fun a u1 => run_alike (k1 a) (k2 a) u1 Q) ->
  run_alike (m_bind c k1) (m_bind c k2) u Q.
Proof.
  unfold post, run_alike, m_bind.
  destruct (c u) as [[a | e] u1]; [auto | intros _; split; reflexivity].
Qed.

Lemma run_alike_include (given : bool) (res : qm_result) (s : Unit) :
  (exists d, test_rejection (QualityMetrics s) = Ok d) ->
  run_alike
    (include <- m_ret given ;;
     set_excluded (negb include) ;; m_ret (Some res))
    (include <- (u <- m_get ;; m_lift (test_rejection (QualityMetrics u))) ;;
     set_excluded (negb include) ;; m_ret (Some res))
    s
    (fun r u1 u2 => u1 = match r with
                         | Some _ => snd (set_excluded (negb given) u2)
                         | None => u2
                         end).
Proof.
  intros [d Hrej].
  unfold run_alike, m_bind, m_ret, m_get, m_lift, set_excluded, m_modify.
  rewrite Hrej. split; [reflexivity |].
  unfold set_UnitParams. cbn [snd UnitParams Waveforms SpikeParams
                              TrialParams QualityMetrics].
  now rewrite insert_insert_eq.
Qed.

Ltac run_alike_step :=
  lazymatch goal with
  | |- post _ _ _ => post_step
  | |- run_alike (m_bind ?c _) (m_bind ?c _) _ _ => apply run_alike_bind
  | |- run_alike (let '(_, _) := ?p in _) (let '(_, _) := ?p in _) _ _ =>
      lazymatch p with
      | (_, _) => cbv beta iota
      | _ => destruct p
      end
  | |- run_alike (if ?b then _ else _) (if ?b then _ else _) _ _ =>
      destruct b
  | |- run_alike ((fun _ => _) _) _ _ _ => cbv beta
  | |- (fun _ => _) _ _ => cbv beta
  end.

Ltac post_close :=
  cbn [res_tbin_vmid res_rate_t res_t1_inc res_t2_inc res_prd_inc
       res_tr_inc res_spk_inc UnitParams QualityMetrics TrialParams
       SpikeParams Waveforms TrialStart TrialStop sp_time
       set_UnitParams set_QualityMetrics set_TrialParams
       set_SpikeParams] in *;
  match goal with H : isi_stats _ = _ |- _ => rewrite H end;
  eexists _, _, _, _, _, _, _, _, _, _, _;
  repeat apply conj; first [eassumption | reflexivity].

Section QualityControlOutcome.

Variable calc_wf_stats :
  float -> float -> list float -> list float -> result (float * float * Z).
Variable indices_in_window : list float -> float -> float -> list bool.
Variable list_to_quantity : list float -> list float.
Variable quantity_linspace : float -> float -> Z -> list float.
Variable calc_baseline_rate : Unit -> result float.
Variable test_task_relatedness : Unit -> result bool.

(** The unit a returning pass leaves, field by field. *)
Lemma test_qm_outcome (include : option bool) (first_tr last_tr : option Z)
    (u u' : Unit) (res : qm_result) :
  test_qm calc_wf_stats indices_in_window list_to_quantity quantity_linspace
          calc_baseline_rate test_task_relatedness include first_tr last_tr u
  = (Ok (Some res), u') ->
  exists (wf_stats : list (float * float * Z)) (truncated : bool)
         (minV maxV : float) (tbins : list (float * float))
         (wf_binned : list DataFrame) (spk_times_binned : list (list float))
         (wf_dur baseline : float) (task_related decision : bool),
    let spk_times := sp_time (SpikeParams u) in
    let tr_starts := TrialStart (TrialParams u) in
    let tr_stops := TrialStop (TrialParams u) in
    let tr_inc := res_tr_inc res in
    let spk_inc := res_spk_inc res in
    let snr := calc_snr (df_select spk_inc (Waveforms u)) in
    let stats := isi_stats (Quantity (mask_select spk_inc spk_times) Sec) in
    calc_waveform_stats calc_wf_stats (Waveforms u)
    = Ok (wf_stats, truncated, minV, maxV) /\
    time_bin_data indices_in_window quantity_linspace spk_times (Waveforms u)
                  tr_starts tr_stops
    = Ok (tbins, res_tbin_vmid res, wf_binned, spk_times_binned) /\
    res_rate_t res
    = zip_with (fun spkt b => F.div (F.of_Z (Z.of_nat (length spkt)))
                                    (F.sub b.2 b.1))
               spk_times_binned tbins /\
    match first_tr, last_tr with
    | Some first_tr, Some last_tr =>
        set_inc_trials indices_in_window first_tr last_tr tr_starts tr_stops
                       spk_times (res_tbin_vmid res)
    | _, _ =>
        test_drift indices_in_window list_to_quantity (res_tbin_vmid res)
                   (res_rate_t res) tbins tr_starts spk_times
    end
    = Ok (res_t1_inc res, res_t2_inc res, res_prd_inc res, tr_inc, spk_inc) /\
    UnitParams u'
    = <["excluded"%string := QBool (negb decision)]>
      (<["maxV"%string := QNum (py_max maxV VMAX)]>
      (<["minV"%string := QNum (py_min minV VMIN)]>
      (<["truncated"%string := QBool truncated]> (UnitParams u)))) /\
    QualityMetrics u'
    = <["TaskRelated"%string := QBool task_related]>
      (<["baseline"%string := QNum baseline]>
      (<["UnitType"%string := QStr (classify_unit (PyFloat snr) stats.1)]>
      (<["TrueSpikes"%string := QNum (to_float stats.1)]>
      (<["ISIvr"%string := QNum (to_float stats.2)]>
      (<["mFR"%string :=
           QNum (F.div (F.of_Z (count_true spk_inc))
                       (F.sub (res_t2_inc res) (res_t1_inc res)))]>
      (<["mWfDur"%string := QNum wf_dur]>
      (<["SNR"%string := QNum snr]>
      (<["NTrialsExc"%string := QNum (F.of_Z (count_true (map negb tr_inc)))]>
      (<["NTrialsInc"%string := QNum (F.of_Z (count_true tr_inc))]>
      (<["NTrialsTotal"%string :=
           QNum (F.of_Z (Z.of_nat (length tr_starts)))]>
         (QualityMetrics u))))))))))) /\
    TrialParams u'
    = {| TrialStart := tr_starts; TrialStop := tr_stops;
         tp_included := tr_inc |} /\
    match include with
    | Some given => decision = given
    | None => test_rejection (QualityMetrics u') = Ok decision
    end.
Proof.
  intros Hrun. revert res u' Hrun.
  assert (Hpost : post (test_qm calc_wf_stats indices_in_window
                          list_to_quantity quantity_linspace
                          calc_baseline_rate test_task_relatedness
                          include first_tr last_tr) u
                    (fun r u' => forall res, r = Some res -> 
  exists (wf_stats : list (float * float * Z)) (truncated : bool)
         (minV maxV : float) (tbins : list (float * float))
         (wf_binned : list DataFrame) (spk_times_binned : list (list float))
         (wf_dur baseline : float) (task_related decision : bool),
    let spk_times := sp_time (SpikeParams u) in
    let tr_starts := TrialStart (TrialParams u) in
    let tr_stops := TrialStop (TrialParams u) in
    let tr_inc := res_tr_inc res in
    let spk_inc := res_spk_inc res in
    let snr := calc_snr (df_select spk_inc (Waveforms u)) in
    let stats := isi_stats (Quantity (mask_select spk_inc spk_times) Sec) in
    calc_waveform_stats calc_wf_stats (Waveforms u)
    = Ok (wf_stats, truncated, minV, maxV) /\
    time_bin_data indices_in_window quantity_linspace spk_times (Waveforms u)
                  tr_starts tr_stops
    = Ok (tbins, res_tbin_vmid res, wf_binned, spk_times_binned) /\
    res_rate_t res
    = zip_with (fun spkt b => F.div (F.of_Z (Z.of_nat (length spkt)))
                                    (F.sub b.2 b.1))
               spk_times_binned tbins /\
    match first_tr, last_tr with
    | Some first_tr, Some last_tr =>
        set_inc_trials indices_in_window first_tr last_tr tr_starts tr_stops
                       spk_times (res_tbin_vmid res)
    | _, _ =>
        test_drift indices_in_window list_to_quantity (res_tbin_vmid res)
                   (res_rate_t res) tbins tr_starts spk_times
    end
    = Ok (res_t1_inc res, res_t2_inc res, res_prd_inc res, tr_inc, spk_inc) /\
    UnitParams u'
    = <["excluded"%string := QBool (negb decision)]>
      (<["maxV"%string := QNum (py_max maxV VMAX)]>
      (<["minV"%string := QNum (py_min minV VMIN)]>
      (<["truncated"%string := QBool truncated]> (UnitParams u)))) /\
    QualityMetrics u'
    = <["TaskRelated"%string := QBool task_related]>
      (<["baseline"%string := QNum baseline]>
      (<["UnitType"%string := QStr (classify_unit (PyFloat snr) stats.1)]>
      (<["TrueSpikes"%string := QNum (to_float stats.1)]>
      (<["ISIvr"%string := QNum (to_float stats.2)]>
      (<["mFR"%string :=
           QNum (F.div (F.of_Z (count_true spk_inc))
                       (F.sub (res_t2_inc res) (res_t1_inc res)))]>
      (<["mWfDur"%string := QNum wf_dur]>
      (<["SNR"%string := QNum snr]>
      (<["NTrialsExc"%string := QNum (F.of_Z (count_true (map negb tr_inc)))]>
      (<["NTrialsInc"%string := QNum (F.of_Z (count_true tr_inc))]>
      (<["NTrialsTotal"%string :=
           QNum (F.of_Z (Z.of_nat (length tr_starts)))]>
         (QualityMetrics u))))))))))) /\
    TrialParams u'
    = {| TrialStart := tr_starts; TrialStop := tr_stops;
         tp_included := tr_inc |} /\
    match include with
    | Some given => decision = given
    | None => test_rejection (QualityMetrics u') = Ok decision
    end)).
  { unfold test_qm, is_empty, set_wf_stats, set_unit_param, set_metric,
      set_excluded, update_included_trials.
    repeat post_step.
    - discriminate.
    - intros res [= <-]. post_close.
    - intros res [= <-]. post_close. }
  intros res u' Hrun.
  exact (post_run _ _ _ _ _ Hpost Hrun res eq_refl).
Qed.


(** The mask of either selection is a mask over the trials. *)
Lemma selection_mask (first_tr last_tr : option Z)
    (t v : list float) (tbins : list (float * float))
    (tr_starts tr_stops spk_times : list float) (t1_inc t2_inc : float)
    (prd_inc tr_inc spk_inc : list bool) :
  match first_tr, last_tr with
  | Some first_tr, Some last_tr =>
      set_inc_trials indices_in_window first_tr last_tr tr_starts tr_stops
                     spk_times t
  | _, _ =>
      test_drift indices_in_window list_to_quantity t v tbins tr_starts
                 spk_times
  end = Ok (t1_inc, t2_inc, prd_inc, tr_inc, spk_inc) ->
  exists a b, tr_inc = trial_mask (length tr_starts) a b.
Proof.
  intros Hsel.
  assert (Hdrift : test_drift indices_in_window list_to_quantity t v tbins
                              tr_starts spk_times
                   = Ok (t1_inc, t2_inc, prd_inc, tr_inc, spk_inc) ->
                   exists a b, tr_inc = trial_mask (length tr_starts) a b).
  { unfold test_drift.
    destruct (drift_search _ _ _ _) as [best |]; [| discriminate].
    cbn [mbind result_bind]. intros [= <- <- <- <- <-]. eauto. }
  destruct first_tr as [first_tr |]; [| auto].
  destruct last_tr as [last_tr |]; [| auto].
  revert Hsel. unfold set_inc_trials.
  destruct (get_start_stop_times _ _ _) as [tstart tstop].
  destruct (if first_tr =? 0 then _ else _) as [t1 |]; [| discriminate].
  cbn [mbind result_bind].
  destruct (if last_tr =? _ then _ else _) as [t2 |]; [| discriminate].
  cbn [mbind result_bind]. intros [= <- <- <- <- <-]. eauto.
Qed.

(** X12: when [test_qm] returns a result, [Unit.is_excluded] afterwards
    hands back the negation of the decision to include the unit: the
    decision is the caller's [include] when one is given, and otherwise
    what [test_rejection] returns on the metrics the unit now holds. *)
Theorem test_qm_excluded_flag (include : option bool)
    (first_tr last_tr : option Z) (u u' : Unit) (res : qm_result) :
  test_qm calc_wf_stats indices_in_window list_to_quantity quantity_linspace
          calc_baseline_rate test_task_relatedness include first_tr last_tr u
  = (Ok (Some res), u') ->
  exists decision : bool,
    is_excluded u' = (Ok (QBool (negb decision)), u') /\
    match include with
    | Some given => decision = given
    | None => test_rejection (QualityMetrics u') = Ok decision
    end.
Proof.
  intros Hrun.
  destruct (test_qm_outcome _ _ _ _ _ _ Hrun)
    as (wf_stats & truncated & minV & maxV & tbins & wf_binned & spk_binned
        & wf_dur & baseline & task_related & decision & Hout).
  cbv zeta in Hout.
  destruct Hout as (_ & _ & _ & _ & Hup & _ & _ & Hdec).
  exists decision. split; [| exact Hdec].
  unfold is_excluded, m_bind, m_get, m_lift.
  now rewrite Hup, lookup_insert_eq.
Qed.

(** X13: when [test_qm] returns a result, the trial bookkeeping of the unit
    is consistent: [Unit.inc_trials] hands back the trial mask of the
    result, the mask has one entry per trial, NTrialsTotal is the number of
    trials, NTrialsInc the number of trials the mask marks, which lies
    between 0 and NTrialsTotal, and NTrialsExc is the rest. *)
Theorem test_qm_trial_counts (include : option bool)
    (first_tr last_tr : option Z) (u u' : Unit) (res : qm_result) :
  test_qm calc_wf_stats indices_in_window list_to_quantity quantity_linspace
          calc_baseline_rate test_task_relatedness include first_tr last_tr u
  = (Ok (Some res), u') ->
  let n := Z.of_nat (length (TrialStart (TrialParams u))) in
  let n_inc := count_true (res_tr_inc res) in
  inc_trials u' = (Ok (res_tr_inc res), u') /\
  length (res_tr_inc res) = length (TrialStart (TrialParams u)) /\
  0 <= n_inc <= n /\
  QualityMetrics u' !! "NTrialsTotal"%string = Some (QNum (F.of_Z n)) /\
  QualityMetrics u' !! "NTrialsInc"%string = Some (QNum (F.of_Z n_inc)) /\
  QualityMetrics u' !! "NTrialsExc"%string
  = Some (QNum (F.of_Z (n - n_inc))).
Proof.
  intros Hrun n n_inc.
  destruct (test_qm_outcome _ _ _ _ _ _ Hrun)
    as (wf_stats & truncated & minV & maxV & tbins & wf_binned & spk_binned
        & wf_dur & baseline & task_related & decision & Hout).
  cbv zeta in Hout.
  destruct Hout as (_ & _ & _ & Hsel & _ & Hqm & Htp & _).
  destruct (selection_mask _ _ _ _ _ _ _ _ _ _ _ _ _ Hsel) as (a & b & Hmask).
  assert (Hlen : length (res_tr_inc res)
                 = length (TrialStart (TrialParams u)))
    by (rewrite Hmask; apply trial_mask_length).
  split; [unfold inc_trials, m_bind, m_get, m_ret; now rewrite Htp |].
  split; [exact Hlen |].
  split.
  { subst n n_inc. split; [apply count_true_nonneg |].
    rewrite <- Hlen. apply count_true_le_length. }
  assert (Hexc : count_true (map negb (res_tr_inc res)) = n - n_inc)
    by (subst n n_inc; now rewrite count_true_negb, Hlen).
  rewrite Hqm, <- Hexc. subst n n_inc.
  repeat split; lookup_metric.
Qed.

(** X14: without an override, a returning [test_qm] excludes the unit
    exactly when one of the five criteria fails on the values of this very
    pass: the SNR of the included waveforms, the number of included spikes
    over the length of the included period, the ISI violation ratio of the
    included spikes, the number of trials, and the number of trials the
    returned mask marks. *)
Theorem test_qm_automatic_decision (first_tr last_tr : option Z)
    (u u' : Unit) (res : qm_result) :
  test_qm calc_wf_stats indices_in_window list_to_quantity quantity_linspace
          calc_baseline_rate test_task_relatedness None first_tr last_tr u
  = (Ok (Some res), u') ->
  let spk_inc := res_spk_inc res in
  let snr := calc_snr (df_select spk_inc (Waveforms u)) in
  let mfr := F.div (F.of_Z (count_true spk_inc))
                   (F.sub (res_t2_inc res) (res_t1_inc res)) in
  let isivr :=
    to_float (isi_stats (Quantity (mask_select spk_inc
                                     (sp_time (SpikeParams u))) Sec)).2 in
  let ntot := F.of_Z (Z.of_nat (length (TrialStart (TrialParams u)))) in
  let ninc := F.of_Z (count_true (res_tr_inc res)) in
  UnitParams u' !! "excluded"%string
  = Some (QBool (negb (crit_SNR snr && crit_FR mfr && crit_ISI isivr &&
                       crit_NTotal ntot && crit_IncRatio ninc ntot))).
Proof.
  intros Hrun spk_inc snr mfr isivr ntot ninc.
  destruct (test_qm_outcome _ _ _ _ _ _ Hrun)
    as (wf_stats & truncated & minV & maxV & tbins & wf_binned & spk_binned
        & wf_dur & baseline & task_related & decision & Hout).
  cbv zeta in Hout.
  destruct Hout as (_ & _ & _ & _ & Hup & Hqm & _ & Hdec).
  rewrite (test_rejection_run (QualityMetrics u') snr mfr isivr ntot ninc)
    in Hdec by (rewrite Hqm; lookup_metric).
  assert (Hd : decision = crit_SNR snr && crit_FR mfr && crit_ISI isivr &&
                          crit_NTotal ntot && crit_IncRatio ninc ntot)
    by congruence.
  rewrite Hup, Hd. apply lookup_insert_eq.
Qed.


(** X15: on a unit with at least one trial, the override [include]
    changes nothing but the excluded flag.  With and without it [test_qm]
    returns the same result or raises the same exception, so the
    rejection test inside [test_qm] never raises;
    when a result is returned, the unit of the overridden pass is the unit
    of the automatic pass with the excluded flag set as asked, and
    otherwise both passes leave the same unit. *)
Theorem test_qm_include_override (given : bool)
    (first_tr last_tr : option Z) (u : Unit) :
  TrialStart (TrialParams u) <> [] ->
  let auto := test_qm calc_wf_stats indices_in_window list_to_quantity
                      quantity_linspace calc_baseline_rate
                      test_task_relatedness None first_tr last_tr u in
  let forced := test_qm calc_wf_stats indices_in_window list_to_quantity
                        quantity_linspace calc_baseline_rate
                        test_task_relatedness (Some given) first_tr last_tr u in
  fst forced = fst auto /\
  snd forced = match fst auto with
               | Ok (Some _) => snd (set_excluded (negb given) (snd auto))
               | _ => snd auto
               end.
Proof.
  intros _ auto forced.
  assert (H : run_alike
                (test_qm calc_wf_stats indices_in_window list_to_quantity
                         quantity_linspace calc_baseline_rate
                         test_task_relatedness (Some given) first_tr last_tr)
                (test_qm calc_wf_stats indices_in_window list_to_quantity
                         quantity_linspace calc_baseline_rate
                         test_task_relatedness None first_tr last_tr)
                u
                (fun r u1 u2 =>
                   u1 = match r with
                        | Some _ => snd (set_excluded (negb given) u2)
                        | None => u2
                        end)).
  { unfold test_qm, is_empty, set_wf_stats, set_unit_param, set_metric,
      update_included_trials.
    repeat run_alike_step.
    - split; reflexivity.
    - apply run_alike_include. eexists.
      cbn [QualityMetrics set_UnitParams set_QualityMetrics
           set_TrialParams set_SpikeParams].
      apply test_rejection_run; lookup_metric. }
  subst auto forced. unfold run_alike in H.
  destruct (test_qm _ _ _ _ _ _ (Some given) _ _ u) as [[r1 | e1] u1],
    (test_qm _ _ _ _ _ _ None _ _ u) as [[r2 | e2] u2];
    cbn [fst snd]; try contradiction.
  - destruct H as [<- ->]. split; [reflexivity |]. now destruct r1.
  - destruct H as [<- ->]. split; reflexivity.
Qed.



End QualityControlOutcome.

Lemma test_qm_excluded_flag_witness :
  exists (res : qm_result) (u' : Unit),
    test_qm wf_stats_undefined window_mask id linspace baseline_undefined
            not_task_related (Some true) None None unit_session
    = (Ok (Some res), u') /\
    exists decision : bool,
      is_excluded u' = (Ok (QBool (negb decision)), u') /\ decision = true.
Proof.
  eexists _, _. split; [vm_compute; reflexivity |].
  eapply (test_qm_excluded_flag wf_stats_undefined window_mask id linspace
            baseline_undefined not_task_related (Some true) None None
            unit_session).
  vm_compute. reflexivity.
Defined.

Lemma test_qm_trial_counts_witness :
  exists (res : qm_result) (u' : Unit),
    test_qm wf_stats_undefined window_mask id linspace baseline_undefined
            not_task_related None (Some 2) (Some 10) unit_session
    = (Ok (Some res), u') /\
    inc_trials u' = (Ok (res_tr_inc res), u') /\
    QualityMetrics u' !! "NTrialsInc"%string
    = Some (QNum (F.of_Z (count_true (res_tr_inc res)))).
Proof.
  eexists _, _. split; [vm_compute; reflexivity |].
  refine (let H := test_qm_trial_counts wf_stats_undefined window_mask id
                     linspace baseline_undefined not_task_related None
                     (Some 2) (Some 10) unit_session _ _ _ in
          conj (proj1 H) (proj1 (proj2 (proj2 (proj2 (proj2 H)))))).
  vm_compute. reflexivity.
Defined.

Lemma test_qm_automatic_decision_witness :
  exists (res : qm_result) (u' : Unit),
    test_qm wf_stats_undefined window_mask id linspace baseline_undefined
            not_task_related None None None unit_session
    = (Ok (Some res), u') /\
    UnitParams u' !! "excluded"%string = Some (QBool true).
Proof.
  eexists _, _. split; [vm_compute; reflexivity |].
  refine (eq_trans
            (test_qm_automatic_decision wf_stats_undefined window_mask id
               linspace baseline_undefined not_task_related None None
               unit_session _ _ _) _).
  - vm_compute. reflexivity.
  - vm_compute. reflexivity.
Defined.


Lemma test_qm_include_override_witness :
  let auto := test_qm wf_stats_undefined window_mask id linspace
                      baseline_undefined not_task_related None None None
                      unit_session in
  let forced := test_qm wf_stats_undefined window_mask id linspace
                        baseline_undefined not_task_related (Some true)
                        None None unit_session in
  fst forced = fst auto /\
  snd forced = match fst auto with
               | Ok (Some _) => snd (set_excluded false (snd auto))
               | _ => snd auto
               end.
Proof.
  apply (test_qm_include_override wf_stats_undefined window_mask id linspace
           baseline_undefined not_task_related true None None unit_session).
  vm_compute. discriminate.
Defined.

(** ** The span of a recording *)

Lemma fold_np_minimum_spec (l : list float) (a : float) :
  F.is_nan a = false -> Forall (fun x => F.is_nan x = false) l ->
  F.is_nan (fold_left np_minimum l a) = false /\
  F.leb (fold_left np_minimum l a) a = true /\
  (forall x, x ∈ l -> F.leb (fold_left np_minimum l a) x = true).
Proof.
  revert a. induction l as [| b l IH]; intros a Ha Hl.
  - cbn [fold_left]. split; [exact Ha |]. split; [now apply leb_refl |].
    intros x Hx. now apply elem_of_nil in Hx.
  - inversion Hl as [| ? ? Hb Hl']; subst. cbn [fold_left].
    assert (Hstep : F.is_nan (np_minimum a b) = false /\
                    F.leb (np_minimum a b) a = true /\
                    F.leb (np_minimum a b) b = true).
    { unfold np_minimum. rewrite Ha, Hb. destruct (F.ltb b a) eqn:Hlt.
      - split; [exact Hb |]. split; [now apply ltb_leb | now apply leb_refl].
      - split; [exact Ha |]. split; [now apply leb_refl |].
        now apply not_ltb_leb. }
    destruct Hstep as (Hok & Hle_a & Hle_b).
    destruct (IH (np_minimum a b) Hok Hl') as (Hr & Hm & Hall).
    split; [exact Hr |]. split.
    + exact (leb_trans _ _ _ Hm Hle_a).
    + intros x Hx. apply elem_of_cons in Hx as [-> | Hx]; [| now apply Hall].
      exact (leb_trans _ _ _ Hm Hle_b).
Qed.

Lemma fold_np_maximum_spec (l : list float) (a : float) :
  F.is_nan a = false -> Forall (fun x => F.is_nan x = false) l ->
  F.is_nan (fold_left np_maximum l a) = false /\
  F.leb a (fold_left np_maximum l a) = true /\
  (forall x, x ∈ l -> F.leb x (fold_left np_maximum l a) = true).
Proof.
  revert a. induction l as [| b l IH]; intros a Ha Hl.
  - cbn [fold_left]. split; [exact Ha |]. split; [now apply leb_refl |].
    intros x Hx. now apply elem_of_nil in Hx.
  - inversion Hl as [| ? ? Hb Hl']; subst. cbn [fold_left].
    assert (Hstep : F.is_nan (np_maximum a b) = false /\
                    F.leb a (np_maximum a b) = true /\
                    F.leb b (np_maximum a b) = true).
    { unfold np_maximum. rewrite Ha, Hb. destruct (F.ltb a b) eqn:Hlt.
      - split; [exact Hb |]. split; [now apply ltb_leb | now apply leb_refl].
      - split; [exact Ha |]. split; [now apply leb_refl |].
        now apply not_ltb_leb. }
    destruct Hstep as (Hok & Hle_a & Hle_b).
    destruct (IH (np_maximum a b) Hok Hl') as (Hr & Hm & Hall).
    split; [exact Hr |]. split.
    + exact (leb_trans _ _ _ Hle_a Hm).
    + intros x Hx. apply elem_of_cons in Hx as [-> | Hx]; [| now apply Hall].
      exact (leb_trans _ _ _ Hle_b Hm).
Qed.

Lemma dropna_not_nan (xs : list float) :
  Forall (fun x => F.is_nan x = false) (dropna xs).
Proof.
  apply Forall_forall. intros x Hx. unfold dropna in Hx.
  now apply list_elem_of_filter in Hx as [Hx _].
Qed.

Lemma elem_of_dropna (xs : list float) (x : float) :
  x ∈ xs -> F.is_nan x = false -> x ∈ dropna xs.
Proof. intros Hx Hn. unfold dropna. now apply list_elem_of_filter. Qed.

(** The smallest entry that is a number, or NaN when there is none. *)
Lemma pd_min_spec (xs : list float) :
  (dropna xs = [] /\ pd_min xs = F.nan) \/
  (F.is_nan (pd_min xs) = false /\
   forall x, x ∈ xs -> F.is_nan x = false -> F.leb (pd_min xs) x = true).
Proof.
  unfold pd_min. pose proof (dropna_not_nan xs) as Hall.
  pose proof (elem_of_dropna xs) as Hin.
  destruct (dropna xs) as [| a l]; [left; split; reflexivity | right].
  inversion Hall as [| ? ? Ha Hl]; subst. cbn [np_min default].
  destruct (fold_np_minimum_spec l a Ha Hl) as (Hn & Hle & Hrest).
  split; [exact Hn |]. intros x Hx Hnx.
  specialize (Hin x Hx Hnx). apply elem_of_cons in Hin as [-> | Hin]; auto.
Qed.

Lemma pd_max_spec (xs : list float) :
  (dropna xs = [] /\ pd_max xs = F.nan) \/
  (F.is_nan (pd_max xs) = false /\
   forall x, x ∈ xs -> F.is_nan x = false -> F.leb x (pd_max xs) = true).
Proof.
  unfold pd_max. pose proof (dropna_not_nan xs) as Hall.
  pose proof (elem_of_dropna xs) as Hin.
  destruct (dropna xs) as [| a l]; [left; split; reflexivity | right].
  inversion Hall as [| ? ? Ha Hl]; subst. cbn [np_max default].
  destruct (fold_np_maximum_spec l a Ha Hl) as (Hn & Hle & Hrest).
  split; [exact Hn |]. intros x Hx Hnx.
  specialize (Hin x Hx Hnx). apply elem_of_cons in Hin as [-> | Hin]; auto.
Qed.

(** Python's [min] and [max] of a number and a second value that may be
    NaN. *)
Lemma py_min_bound (a b : float) :
  F.is_nan a = false ->
  F.is_nan (py_min a b) = false /\
  F.leb (py_min a b) a = true /\
  (F.is_nan b = false -> F.leb (py_min a b) b = true).
Proof.
  intros Ha. unfold py_min. destruct (F.ltb b a) eqn:Hlt.
  - pose proof (ltb_leb _ _ Hlt) as Hle.
    destruct (leb_not_nan _ _ Hle) as [Hb _].
    split; [exact Hb |]. split; [exact Hle |]. intros _. now apply leb_refl.
  - split; [exact Ha |]. split; [now apply leb_refl |].
    intros Hb. now apply not_ltb_leb.
Qed.

Lemma py_max_bound (a b : float) :
  F.is_nan a = false ->
  F.is_nan (py_max a b) = false /\
  F.leb a (py_max a b) = true /\
  (F.is_nan b = false -> F.leb b (py_max a b) = true).
Proof.
  intros Ha. unfold py_max, F.gtb. destruct (F.ltb a b) eqn:Hlt.
  - pose proof (ltb_leb _ _ Hlt) as Hle.
    destruct (leb_not_nan _ _ Hle) as [_ Hb].
    split; [exact Hb |]. split; [exact Hle |]. intros _. now apply leb_refl.
  - split; [exact Ha |]. split; [now apply leb_refl |].
    intros Hb. now apply not_ltb_leb.
Qed.

(** X17: when the spike times hold a number, the recording span of
    [get_start_stop_times] is in order and covers every spike and every
    trial: no spike time and no trial start lies before [t_start], no spike
    time and no trial stop after [t_stop] (NaN entries are skipped).
    Without trial starts the span begins at the first spike, and without
    trial stops it ends at the last spike. *)
Theorem get_start_stop_times_span (spk_times tr_starts tr_stops : list float)
    (x0 : float) :
  x0 ∈ spk_times -> F.is_nan x0 = false ->
  let t_start := (get_start_stop_times spk_times tr_starts tr_stops).1 in
  let t_stop := (get_start_stop_times spk_times tr_starts tr_stops).2 in
  F.leb t_start t_stop = true /\
  (forall x, x ∈ spk_times -> F.is_nan x = false ->
             F.leb t_start x = true /\ F.leb x t_stop = true) /\
  (forall x, x ∈ tr_starts -> F.is_nan x = false -> F.leb t_start x = true) /\
  (forall x, x ∈ tr_stops -> F.is_nan x = false -> F.leb x t_stop = true) /\
  (dropna tr_starts = [] -> t_start = pd_min spk_times) /\
  (dropna tr_stops = [] -> t_stop = pd_max spk_times).
Proof.
  intros Hx0 Hn0 t_start t_stop. subst t_start t_stop.
  unfold get_start_stop_times. cbn [fst snd].
  destruct (pd_min_spec spk_times) as [[Hnone _] | [Hmin_n Hmin]].
  { pose proof (elem_of_dropna _ _ Hx0 Hn0) as Hin. rewrite Hnone in Hin.
    now apply elem_of_nil in Hin. }
  destruct (pd_max_spec spk_times) as [[Hnone _] | [Hmax_n Hmax]].
  { pose proof (elem_of_dropna _ _ Hx0 Hn0) as Hin. rewrite Hnone in Hin.
    now apply elem_of_nil in Hin. }
  destruct (py_min_bound (pd_min spk_times) (pd_min tr_starts) Hmin_n)
    as (Hlo_n & Hlo_spk & Hlo_trl).
  destruct (py_max_bound (pd_max spk_times) (pd_max tr_stops) Hmax_n)
    as (Hhi_n & Hhi_spk & Hhi_trl).
  assert (Hspk : forall x, x ∈ spk_times -> F.is_nan x = false ->
                   F.leb (py_min (pd_min spk_times) (pd_min tr_starts)) x
                   = true /\
                   F.leb x (py_max (pd_max spk_times) (pd_max tr_stops))
                   = true).
  { intros x Hx Hnx. split.
    - exact (leb_trans _ _ _ Hlo_spk (Hmin x Hx Hnx)).
    - exact (leb_trans _ _ _ (Hmax x Hx Hnx) Hhi_spk). }
  split.
  { destruct (Hspk x0 Hx0 Hn0) as [H1 H2]. exact (leb_trans _ _ _ H1 H2). }
  split; [exact Hspk |].
  split.
  { intros x Hx Hnx.
    destruct (pd_min_spec tr_starts) as [[Hnone _] | [Hn Hle]].
    - pose proof (elem_of_dropna _ _ Hx Hnx) as Hin. rewrite Hnone in Hin.
      now apply elem_of_nil in Hin.
    - exact (leb_trans _ _ _ (Hlo_trl Hn) (Hle x Hx Hnx)). }
  split.
  { intros x Hx Hnx.
    destruct (pd_max_spec tr_stops) as [[Hnone _] | [Hn Hle]].
    - pose proof (elem_of_dropna _ _ Hx Hnx) as Hin. rewrite Hnone in Hin.
      now apply elem_of_nil in Hin.
    - exact (leb_trans _ _ _ (Hle x Hx Hnx) (Hhi_trl Hn)). }
  split.
  - intros Hnone. unfold pd_min at 2. rewrite Hnone. cbn [np_min default].
    unfold py_min. now rewrite ltb_nan_l.
  - intros Hnone. unfold pd_max at 2. rewrite Hnone. cbn [np_max default].
    unfold py_max, F.gtb. now rewrite ltb_nan_r.
Qed.

Lemma get_start_stop_times_span_witness :
  F.leb (get_start_stop_times session_spikes session_trials session_trials).1
        (get_start_stop_times session_spikes session_trials session_trials).2
  = true.
Proof.
  refine (proj1 (get_start_stop_times_span session_spikes session_trials
                   session_trials (F.of_Z 3) _ _)).
  - unfold session_spikes. cbn [map]. apply list_elem_of_here.
  - reflexivity.
Defined.
